(** * testtiming: the LUCI dashboard pipeline of cherry/testtiming/luci.go

    A shallow embedding of the client in cherry/testtiming/luci.go
    (commit listing, builder listing, build search, reconciliation of one
    builder's builds, assembly of the builder x commit matrix and the CSV
    extraction loop of main), with the properties of the specification
    stated over it.

    Conventions.
    - A [time.Time] is an instant, a number of nanoseconds since the Unix
      epoch, in [Z].  [Before] is the strict order on instants.
    - The remote services are functions from requests to responses or
      errors.  Every call a function makes is recorded, in order, in the
      trace of its run, together with what it logs and prints.
    - [log.Fatal] ends the process: a run that reaches it has the result
      [Fatal], a run-time panic has the result [Panic].  The page loops
      (the [goto nextPage] loops) take a bound on the number of pages they
      may request; a run that exhausts it has the result [OutOfFuel]. *)

From Stdlib Require Import ZArith String Ascii List Lia Permutation Sorted.
From stdpp Require Import gmap strings list fin_maps.
From stdpp Require Import pretty.

Set Warnings "-register-all".

#[local] Open Scope string_scope.
#[local] Open Scope list_scope.
#[local] Open Scope nat_scope.

(** ** Protocol buffer messages (the fields luci.go reads) *)

Definition Error := string.
Definition Time := Z.

(** [t.Before(u)] *)
Definition Before (t u : Time) : bool := (t <? u)%Z.

(** The zero [time.Time] (January 1, year 1, 00:00 UTC). *)
Definition zeroTime : Time := (-62135596800 * 1000000000)%Z.

(** google.protobuf.Timestamp *)
Record Timestamp := { seconds : Z; nanos : Z }.

(** [Timestamp.AsTime]; a nil timestamp is the Unix epoch. *)
Definition AsTime (ts : option Timestamp) : Time :=
  match ts with
  | Some t => (seconds t * 1000000000 + nanos t)%Z
  | None => 0%Z
  end.

(** buildbucket.v2.Status *)
Inductive Status :=
  | Status_STATUS_UNSPECIFIED | Status_SCHEDULED | Status_STARTED
  | Status_ENDED_MASK | Status_SUCCESS | Status_FAILURE
  | Status_INFRA_FAILURE | Status_CANCELED.

#[global] Instance Status_eq_dec : EqDecision Status.
Proof. solve_decision. Defined.

(** luci.resultdb.v1.TestStatus *)
Inductive TestStatus :=
  | TestStatus_STATUS_UNSPECIFIED | TestStatus_PASS | TestStatus_FAIL
  | TestStatus_CRASH | TestStatus_ABORT | TestStatus_SKIP.

#[global] Instance TestStatus_eq_dec : EqDecision TestStatus.
Proof. solve_decision. Defined.

(** google.protobuf.Value, with the struct fields as a map. *)
Inductive Value :=
  | NullValue
  | NumberValue (n : Z)
  | StringValue (s : string)
  | BoolValue (b : bool)
  | StructValue (fields : gmap string Value)
  | ListValue (values : list Value).

(** The nil-safe getters: on a nil pointer, or on a value of another
    kind, they return the zero value. *)
Definition GetStringValue (v : option Value) : string :=
  match v with Some (StringValue s) => s | _ => "" end.

(** [v.GetStructValue().GetFields()] *)
Definition GetStructFields (v : option Value) : gmap string Value :=
  match v with Some (StructValue f) => f | _ => ∅ end.

(** [v.GetListValue().GetValues()] *)
Definition GetListValues (v : option Value) : list Value :=
  match v with Some (ListValue l) => l | _ => [] end.

(** gitiles.Commit: [GetId] and [GetCommitter().GetTime()]. *)
Record GitCommit := { Id : string; CommitterTime : option Timestamp }.

Record LogRequest := {
  lr_Project : string;
  lr_Committish : string;
  lr_PageSize : Z;
  lr_PageToken : string
}.

Record LogResponse := { Log : list GitCommit; lp_NextPageToken : string }.

Record BuilderConfigProperties := {
  Repo : string;
  GoBranch : string;
  GOARCH : string;
  GOOS : string;
  KnownIssue : Z
}.

(** bbpb.BuilderItem: [GetId().GetBuilder()] and
    [GetConfig().GetProperties()] (a JSON text). *)
Record BuilderItem := { bi_Builder : string; bi_Properties : string }.

Record ListBuildersRequest := {
  lb_Project : string;
  lb_Bucket : string;
  lb_PageSize : Z;
  lb_PageToken : string
}.

Record ListBuildersResponse := {
  Builders_ : list BuilderItem;
  lbp_NextPageToken : string
}.

(** bbpb.Log *)
Record BLog := { Name_ : string; ViewUrl : string }.

(** bbpb.Step *)
Record Step := { st_Status : Status; st_Logs : list BLog }.

(** bbpb.Build, flattened: each field is what the chain of nil-safe
    getters written in its comment returns. *)
Record Build := {
  b_Id : Z;                              (* GetId() *)
  b_Builder : string;                    (* GetBuilder().GetBuilder() *)
  b_Status : Status;                     (* GetStatus() *)
  b_Properties : gmap string Value;      (* GetOutput().GetProperties().GetFields() *)
  b_Logs : list BLog;                    (* GetOutput().GetLogs() *)
  b_Steps : list Step;                   (* GetSteps() *)
  b_Hostname : string;                   (* GetInfra().GetResultdb().GetHostname() *)
  b_Invocation : string;                 (* GetInfra().GetResultdb().GetInvocation() *)
  b_EndTime : option Timestamp           (* GetEndTime() *)
}.

Record SearchBuildsRequest := {
  sb_Project : string;
  sb_Bucket : string;
  sb_Builder : string;
  sb_StartTime : Time;
  sb_Mask : list string;
  sb_PageSize : Z;
  sb_PageToken : string
}.

Record SearchBuildsResponse := {
  Builds : list Build;
  sbp_NextPageToken : string
}.

Record QueryTestResultsRequest := {
  Invocations : list string;
  TestIdRegexp : string
}.

(** rdbpb.TestResult: [GetStatus()] and [GetDuration().AsDuration()]
    (nanoseconds). *)
Record TestResult := { tr_Status : TestStatus; tr_Duration : Z }.

Record QueryTestResultsResponse := { TestResults : list TestResult }.

(** ** Runs: result and trace *)

Inductive rpc (A : Type) :=
  | Resp (a : A)
  | Failed (e : Error).
Arguments Resp {A} a.
Arguments Failed {A} e.

(** What log.Println and log.Printf write, by call site. *)
Inductive LogLine :=
  | TraceStep (name : string) (args : list string)
  | RepoMismatch (repo dashRepo : string) (id : Z)
  | EmptyCommit (id : Z).

Inductive FatalMsg :=
  | FatalErr (e : Error)
  | TestNameUnset
  | HostMismatch (host want : string) (id : Z)
  | BuilderMismatch (got want : string) (id : Z).

Inductive PanicMsg :=
  | NProcPanic (nProc : Z)
  | IndexOutOfRange (i len : nat).

Inductive Event :=
  | EvLog (l : LogLine)
  | EvGitilesLog (req : LogRequest)
  | EvListBuilders (req : ListBuildersRequest)
  | EvSearchBuilds (cancelled : bool) (req : SearchBuildsRequest)
  | EvQueryTestResults (req : QueryTestResultsRequest)
  | EvUsage
  | EvPrint (s : string).

Inductive outcome (A : Type) :=
  | Ret (a : A)
  | Fatal (m : FatalMsg)
  | Panic (m : PanicMsg)
  | OutOfFuel.
Arguments Ret {A} a.
Arguments Fatal {A} m.
Arguments Panic {A} m.
Arguments OutOfFuel {A}.

Record run (A : Type) := Run { trace : list Event; result : outcome A }.
Arguments Run {A} trace result.
Arguments trace {A} r.
Arguments result {A} r.

Definition ret {A} (a : A) : run A := Run [] (Ret a).

Definition bind {A B} (m : run A) (k : A → run B) : run B :=
  match result m with
  | Ret a => Run (trace m ++ trace (k a)) (result (k a))
  | Fatal e => Run (trace m) (Fatal e)
  | Panic e => Run (trace m) (Panic e)
  | OutOfFuel => Run (trace m) OutOfFuel
  end.

#[global] Instance run_ret : MRet run := @ret.
#[global] Instance run_bind : MBind run := λ A B k m, bind m k.

Definition emit (e : Event) : run unit := Run [e] (Ret tt).
Definition log_Fatal {A} (m : FatalMsg) : run A := Run [] (Fatal m).
Definition panic {A} (m : PanicMsg) : run A := Run [] (Panic m).
Definition diverge {A} : run A := Run [] OutOfFuel.
Definition when (b : bool) (m : run unit) : run unit := if b then m else ret tt.

(** A call to a remote service: the request goes to the trace. *)
Definition call {Rq Rs} (ev : Rq → Event) (srv : Rq → rpc Rs) (req : Rq)
  : run (rpc Rs) :=
  Run [ev req] (Ret (srv req)).

(** ** The data model of luci.go *)

Record Builder := { Name : string; b_Config : BuilderConfigProperties }.

Record Commit := { Hash : string; Time_ : Time }.

Record Failure := {
  TestID : string;
  f_Status : TestStatus;
  f_LogURL : string;
  f_LogText : string
}.

Record BuildResult := {
  ID : Z;
  r_Status : Status;
  r_Commit : string;        (* commit hash *)
  r_Time : Time;            (* commit time *)
  GoCommit : string;        (* for subrepo build, go commit hash *)
  BuildTime : Time;         (* build end time *)
  r_Builder : string;
  r_Config : BuilderConfigProperties;
  InvocationID : string;    (* ResultDB invocation ID *)
  LogURL : string;          (* textual log of the whole run *)
  LogText : string;
  StepLogURL : string;      (* textual log of the (last) failed step, if any *)
  StepLogText : string;
  Failures : list Failure
}.

(** ** The client *)

Definition resultDBHost := "results.api.cr.dev".
Definition crBuildBucketHost := "cr-buildbucket.appspot.com".
Definition gitilesHost := "go.googlesource.com".

Definition GitilesClient := LogRequest → rpc LogResponse.
(** The builds client is called under the group's context, which may
    have been cancelled: the flag is passed to it. *)
Definition BuildsClient := bool → SearchBuildsRequest → rpc SearchBuildsResponse.
Definition BuildersClient := ListBuildersRequest → rpc ListBuildersResponse.
Definition ResultDBClient := QueryTestResultsRequest → rpc QueryTestResultsResponse.

Record LUCIClient := {
  c_GitilesClient : GitilesClient;
  c_BuildsClient : BuildsClient;
  c_BuildersClient : BuildersClient;
  c_ResultDBClient : ResultDBClient;
  TraceSteps : bool;
  nProc : Z
}.

Definition set_TraceSteps (c : LUCIClient) (b : bool) : LUCIClient :=
  {| c_GitilesClient := c_GitilesClient c;
     c_BuildsClient := c_BuildsClient c;
     c_BuildersClient := c_BuildersClient c;
     c_ResultDBClient := c_ResultDBClient c;
     TraceSteps := b;
     nProc := nProc c |}.

(** What lies behind the library constructors: the services reached at a
    host, and the few library functions the program calls. *)
Record Library := {
  gitiles_NewRESTClient : string → rpc GitilesClient;
  bbpb_NewBuildsClient : string → BuildsClient;
  bbpb_NewBuildersClient : string → BuildersClient;
  rdbpb_NewResultDBClient : string → ResultDBClient;
  fieldmaskpb_New : list string → rpc (list string);
  (* json.Unmarshal into a zero BuilderConfigProperties, error dropped *)
  json_Unmarshal : string → BuilderConfigProperties;
  (* slices.SortFunc by strings.Compare on the builder names *)
  slices_SortByName : list Builder → list Builder;
  regexp_QuoteMeta : string → string;
  (* what fmt.Print writes for a time.Time and for a float64 of seconds *)
  fmt_Time : Time → string;
  fmt_Seconds : Z → string
}.

Definition NewLUCIClient (lib : Library) (nProc : Z) : run LUCIClient :=
  if (nProc <? 1)%Z then panic (NProcPanic nProc)
  else
    match gitiles_NewRESTClient lib gitilesHost with
    | Failed err => log_Fatal (FatalErr err)
    | Resp gitilesClient =>
        ret {| c_GitilesClient := gitilesClient;
               c_BuildsClient := bbpb_NewBuildsClient lib crBuildBucketHost;
               c_BuildersClient := bbpb_NewBuildersClient lib crBuildBucketHost;
               c_ResultDBClient := rdbpb_NewResultDBClient lib resultDBHost;
               TraceSteps := false;
               nProc := nProc |}
    end.

(** ** ListCommits *)

Definition logRequest (repo branch pageToken : string) : LogRequest :=
  {| lr_Project := repo;
     lr_Committish := "refs/heads/" +:+ branch;
     lr_PageSize := 1000;
     lr_PageToken := pageToken |}.

(** The loop over one page (lines 165-174); [true] is [goto done]. *)
Fixpoint scanLog (since : Time) (log : list GitCommit) (commits : list Commit)
  : list Commit * bool :=
  match log with
  | [] => (commits, false)
  | c :: log' =>
      let commitTime := AsTime (CommitterTime c) in
      if Before commitTime since then (commits, true)
      else scanLog since log' (commits ++ [{| Hash := Id c; Time_ := commitTime |}])
  end.

(** The [nextPage] loop (lines 155-180). *)
Fixpoint ListCommits_nextPage (fuel : nat) (c : LUCIClient)
    (repo branch : string) (since : Time)
    (commits : list Commit) (pageToken : string) : run (list Commit) :=
  match fuel with
  | O => diverge
  | S fuel' =>
      r ← call EvGitilesLog (c_GitilesClient c) (logRequest repo branch pageToken);
      match r with
      | Failed err => log_Fatal (FatalErr err)
      | Resp resp =>
          let '(commits', done) := scanLog since (Log resp) commits in
          if done then ret commits'
          else if decide (lp_NextPageToken resp ≠ "")
          then ListCommits_nextPage fuel' c repo branch since commits'
                 (lp_NextPageToken resp)
          else ret commits'
      end
  end.

Definition ListCommits (fuel : nat) (c : LUCIClient)
    (repo goBranch : string) (since : Time) : run (list Commit) :=
  _ ← when (TraceSteps c) (emit (EvLog (TraceStep "ListCommits" [repo; goBranch])));
  let branch := if decide (repo = "go") then goBranch else "master" in
  ListCommits_nextPage fuel c repo branch since [] "".

(** ** ListBuilders *)

Definition listBuildersRequest (pageToken : string) : ListBuildersRequest :=
  {| lb_Project := "golang";
     lb_Bucket := "ci";
     lb_PageSize := 1000;
     lb_PageToken := pageToken |}.

(** The loop over one page of builders (lines 202-212). *)
Fixpoint scanBuilders (lib : Library) (all : bool) (repo goBranch builder : string)
    (items : list BuilderItem) (builders : list Builder) : list Builder :=
  match items with
  | [] => builders
  | b :: items' =>
      let p := json_Unmarshal lib (bi_Properties b) in
      if all || (bool_decide (Repo p = repo) && bool_decide (GoBranch p = goBranch))
      then
        let bName := bi_Builder b in
        if bool_decide (builder ≠ "") && bool_decide (bName ≠ builder)
        then scanBuilders lib all repo goBranch builder items' builders
        else scanBuilders lib all repo goBranch builder items'
               (builders ++ [{| Name := bName; b_Config := p |}])
      else scanBuilders lib all repo goBranch builder items' builders
  end.

Fixpoint ListBuilders_nextPage (fuel : nat) (lib : Library) (c : LUCIClient)
    (all : bool) (repo goBranch builder : string)
    (builders : list Builder) (pageToken : string) : run (rpc (list Builder)) :=
  match fuel with
  | O => diverge
  | S fuel' =>
      r ← call EvListBuilders (c_BuildersClient c) (listBuildersRequest pageToken);
      match r with
      | Failed err => ret (Failed err)
      | Resp resp =>
          let builders' :=
            scanBuilders lib all repo goBranch builder (Builders_ resp) builders in
          if decide (lbp_NextPageToken resp ≠ "")
          then ListBuilders_nextPage fuel' lib c all repo goBranch builder builders'
                 (lbp_NextPageToken resp)
          else ret (Resp (slices_SortByName lib builders'))
      end
  end.

Definition ListBuilders (fuel : nat) (lib : Library) (c : LUCIClient)
    (repo goBranch builder : string) : run (rpc (list Builder)) :=
  _ ← when (TraceSteps c) (emit (EvLog (TraceStep "ListBuilders" [repo; goBranch])));
  let all := bool_decide (repo = "") && bool_decide (goBranch = "") in
  ListBuilders_nextPage fuel lib c all repo goBranch builder [] "".

(** ** GetBuilds *)

Definition buildFields : list string :=
  ["id"; "builder"; "output"; "status"; "steps"; "infra"; "end_time"].

Definition searchBuildsRequest (builder : string) (since : Time)
    (mask : list string) (pageToken : string) : SearchBuildsRequest :=
  {| sb_Project := "golang";
     sb_Bucket := "ci";
     sb_Builder := builder;
     sb_StartTime := since;
     sb_Mask := mask;
     sb_PageSize := 1000;
     sb_PageToken := pageToken |}.

Fixpoint GetBuilds_nextPage (fuel : nat) (c : LUCIClient) (cancelled : bool)
    (builder : string) (since : Time) (mask : list string)
    (builds : list Build) (pageToken : string) : run (rpc (list Build)) :=
  match fuel with
  | O => diverge
  | S fuel' =>
      r ← call (EvSearchBuilds cancelled) (c_BuildsClient c cancelled)
            (searchBuildsRequest builder since mask pageToken);
      match r with
      | Failed err => ret (Failed err)
      | Resp resp =>
          let builds' := builds ++ Builds resp in
          if decide (sbp_NextPageToken resp ≠ "")
          then GetBuilds_nextPage fuel' c cancelled builder since mask builds'
                 (sbp_NextPageToken resp)
          else ret (Resp builds')
      end
  end.

(** [cancelled] tells whether the context the call runs under has been
    cancelled. *)
Definition GetBuilds (fuel : nat) (lib : Library) (c : LUCIClient) (cancelled : bool)
    (builder : string) (since : Time) : run (rpc (list Build)) :=
  _ ← when (TraceSteps c) (emit (EvLog (TraceStep "GetBuilds" [builder])));
  match fieldmaskpb_New lib buildFields with
  | Failed err => ret (Failed err)
  | Resp mask => GetBuilds_nextPage fuel c cancelled builder since mask [] ""
  end.

(** ** Reconciliation of one builder's builds (the body of the unit
    started by ReadBoard, lines 283-381) *)

(** [strings.Contains] *)
Definition strings_Contains (s substr : string) : bool :=
  match index 0 substr s with Some _ => true | None => false end.

(** The loop over the sources of a build (lines 287-303). *)
Fixpoint scanSources (dashRepo : string) (id : Z) (sources : list Value)
    (commit goCommit : string) : run (string * string) :=
  match sources with
  | [] => ret (commit, goCommit)
  | s :: sources' =>
      let fm := GetStructFields (Some s) in
      let gc := match fm !! "gitilesCommit" with
                | Some v => Some v
                | None => fm !! "gitiles_commit"
                end in
      let x := GetStructFields gc in
      let c := GetStringValue (x !! "id") in
      let repo := GetStringValue (x !! "project") in
      if decide (repo = dashRepo) then scanSources dashRepo id sources' c goCommit
      else if decide (repo = "go") then scanSources dashRepo id sources' commit c
      else
        _ ← emit (EvLog (RepoMismatch repo dashRepo id));
        scanSources dashRepo id sources' commit goCommit
  end.

(** The loop over the failure links (lines 346-352): [logURL] is r.LogURL. *)
Fixpoint scanLinks (links : list Value) (logURL : string) : string :=
  match links with
  | [] => logURL
  | l :: links' =>
      let m := GetStructFields (Some l) in
      if strings_Contains (GetStringValue (m !! "name")) "(combined output)"
      then GetStringValue (m !! "url")
      else scanLinks links' logURL
  end.

(** The loop over the build's output logs (lines 357-362). *)
Fixpoint scanOutputLogs (logs : list BLog) (logURL : string) : string :=
  match logs with
  | [] => logURL
  | l :: logs' =>
      if decide (Name_ l = "stderr") then ViewUrl l
      else scanOutputLogs logs' logURL
  end.

(** The loop over the logs of one step (lines 371-376): [Some url] is
    [break stepLoop] after the assignment. *)
Fixpoint scanStepLogs (logs : list BLog) : option string :=
  match logs with
  | [] => None
  | l :: logs' =>
      if bool_decide (Name_ l = "stderr") || bool_decide (Name_ l = "output")
      then Some (ViewUrl l)
      else scanStepLogs logs'
  end.

(** [stepLoop] (lines 368-378), with [n] = i + 1. *)
Fixpoint stepLoop (steps : list Step) (n : nat) (stepLogURL : string) : string :=
  match n with
  | O => stepLogURL
  | S i =>
      match steps !! i with
      | Some s =>
          if decide (st_Status s = Status_FAILURE)
          then match scanStepLogs (st_Logs s) with
               | Some url => url
               | None => stepLoop steps i stepLogURL
               end
          else stepLoop steps i stepLogURL
      | None => stepLoop steps i stepLogURL
      end
  end.

Definition set_LogURL (r : BuildResult) (u : string) : BuildResult :=
  {| ID := ID r; r_Status := r_Status r; r_Commit := r_Commit r;
     r_Time := r_Time r; GoCommit := GoCommit r; BuildTime := BuildTime r;
     r_Builder := r_Builder r; r_Config := r_Config r;
     InvocationID := InvocationID r; LogURL := u; LogText := LogText r;
     StepLogURL := StepLogURL r; StepLogText := StepLogText r;
     Failures := Failures r |}.

Definition set_StepLogURL (r : BuildResult) (u : string) : BuildResult :=
  {| ID := ID r; r_Status := r_Status r; r_Commit := r_Commit r;
     r_Time := r_Time r; GoCommit := GoCommit r; BuildTime := BuildTime r;
     r_Builder := r_Builder r; r_Config := r_Config r;
     InvocationID := InvocationID r; LogURL := LogURL r; LogText := LogText r;
     StepLogURL := u; StepLogText := StepLogText r;
     Failures := Failures r |}.

Definition set_Time (r : BuildResult) (t : Time) : BuildResult :=
  {| ID := ID r; r_Status := r_Status r; r_Commit := r_Commit r;
     r_Time := t; GoCommit := GoCommit r; BuildTime := BuildTime r;
     r_Builder := r_Builder r; r_Config := r_Config r;
     InvocationID := InvocationID r; LogURL := LogURL r; LogText := LogText r;
     StepLogURL := StepLogURL r; StepLogText := StepLogText r;
     Failures := Failures r |}.

(** Lines 344-379: the log references of a FAILURE build. *)
Definition resolveLogs (b : Build) (r : BuildResult) : BuildResult :=
  if decide (r_Status r = Status_FAILURE) then
    let prop := b_Properties b in
    let links :=
      GetListValues (GetStructFields (prop !! "failure") !! "links") in
    let r := set_LogURL r (scanLinks links (LogURL r)) in
    let r :=
      if decide (LogURL r = "")
      then set_LogURL r (scanOutputLogs (b_Logs b) (LogURL r))
      else r in
    let steps := b_Steps b in
    set_StepLogURL r (stepLoop steps (length steps) (StepLogURL r))
  else r.

(** Lines 334-343: the fresh result. *)
Definition newBuildResult (builder : Builder) (b : Build)
    (commit goCommit : string) (buildTime : Time) : BuildResult :=
  {| ID := b_Id b;
     r_Status := b_Status b;
     r_Commit := commit;
     r_Time := zeroTime;
     GoCommit := goCommit;
     BuildTime := buildTime;
     r_Builder := Name builder;
     r_Config := b_Config builder;
     InvocationID := b_Invocation b;
     LogURL := "";
     LogText := "";
     StepLogURL := "";
     StepLogText := "";
     Failures := [] |}.

(** One iteration of the loop over the builds (lines 283-381): the new
    value of [buildMap].  Returning the map unchanged is [continue]. *)
Definition reconcileBuild (dashRepo : string) (builder : Builder)
    (buildMap : gmap string BuildResult) (b : Build)
  : run (gmap string BuildResult) :=
  let bName := Name builder in
  let id := b_Id b in
  let prop := b_Properties b in
  '(commit, goCommit) ←
    scanSources dashRepo id (GetListValues (prop !! "sources")) "" "";
  if decide (commit = "") then
    _ ← when (bool_decide (b_Status b = Status_SUCCESS))
          (emit (EvLog (EmptyCommit id)));
    ret buildMap
  else
    let buildTime := AsTime (b_EndTime b) in
    if match buildMap !! commit with
       | Some r0 => Before buildTime (BuildTime r0)
       | None => false
       end
    then ret buildMap
    else if decide (b_Hostname b ≠ resultDBHost)
    then log_Fatal (HostMismatch (b_Hostname b) resultDBHost id)
    else if decide (b_Builder b ≠ bName)
    then log_Fatal (BuilderMismatch (b_Builder b) bName id)
    else
      let r := newBuildResult builder b commit goCommit buildTime in
      let r := resolveLogs b r in
      ret (<[commit := r]> buildMap).

Fixpoint reconcile (dashRepo : string) (builder : Builder)
    (buildMap : gmap string BuildResult) (builds : list Build)
  : run (gmap string BuildResult) :=
  match builds with
  | [] => ret buildMap
  | b :: builds' =>
      buildMap' ← reconcileBuild dashRepo builder buildMap b;
      reconcile dashRepo builder buildMap' builds'
  end.

(** The function passed to [g.Go] (lines 277-383): the error it returns
    and the map it leaves in its slot of [dashMap]. *)
Definition builderUnit (fuel : nat) (lib : Library) (c : LUCIClient)
    (dashRepo : string) (cancelled : bool) (builder : Builder) (since : Time)
  : run (option Error * gmap string BuildResult) :=
  r ← GetBuilds fuel lib c cancelled (Name builder) since;
  match r with
  | Failed err => ret (Some err, ∅)
  | Resp builds =>
      buildMap ← reconcile dashRepo builder ∅ builds;
      ret (None, buildMap)
  end.

(** ** ReadBoard *)

(** A [*BuildResult].  Every result is allocated once (line 334) and
    stored under one key of the map of one builder (line 380), so the
    builder's index and the key name the object.  Cells that hold the same
    pointer share the object. *)
Definition Ptr := (nat * string)%type.

Record Dashboard := {
  d_Repo : string;                          (* Project.Repo *)
  d_GoBranch : string;                      (* Project.GoBranch *)
  d_Builders : list Builder;
  d_Commits : list Commit;
  d_Results : list (list (option Ptr));     (* indexed by builder, then by commit *)
  (* the objects the cells of Results point to, by builder *)
  d_Objects : list (gmap string BuildResult)
}.

Definition deref (objects : list (gmap string BuildResult)) (p : Ptr)
  : option BuildResult :=
  match objects !! p.1 with
  | Some m => m !! p.2
  | None => None
  end.

(** The pointer in [dash.Results[i][j]]; [None] for a nil cell. *)
Definition cellPtr (dash : Dashboard) (i j : nat) : option Ptr :=
  match d_Results dash !! i with
  | Some row =>
      match row !! j with
      | Some (Some p) => Some p
      | _ => None
      end
  | None => None
  end.

(** [dash.Results[i][j]], dereferenced. *)
Definition cell (dash : Dashboard) (i j : nat) : option BuildResult :=
  match cellPtr dash i j with
  | Some p => deref (d_Objects dash) p
  | None => None
  end.

(** The units started in the loop of lines 273-384, one after the
    other in the order of the builders: with the limit of one unit that
    the client of [main] sets, [g.Go] waits for the unit before it.  [err]
    is the error the group holds; once it is set the group's context is
    cancelled. *)
Fixpoint runUnits (fuel : nat) (lib : Library) (c : LUCIClient)
    (dashRepo : string) (since : Time) (builders : list Builder)
    (err : option Error)
  : run (list (gmap string BuildResult) * option Error) :=
  match builders with
  | [] => ret ([], err)
  | builder :: builders' =>
      '(e, buildMap) ←
        builderUnit fuel lib c dashRepo (bool_decide (is_Some err)) builder since;
      let err' := match err with Some _ => err | None => e end in
      '(dashMap, err'') ← runUnits fuel lib c dashRepo since builders' err';
      ret (buildMap :: dashMap, err'')
  end.

(** The loop over the commits for builder [i] (lines 393-400), from
    column [j] on: the row and the builder's objects. *)
Fixpoint gatherCells (i j : nat) (commits : list Commit)
    (m : gmap string BuildResult) (row : list (option Ptr))
  : list (option Ptr) * gmap string BuildResult :=
  match commits with
  | [] => (row, m)
  | c :: commits' =>
      match m !! Hash c with
      | None => gatherCells i (S j) commits' m row
      | Some r =>
          gatherCells i (S j) commits'
            (<[Hash c := set_Time r (Time_ c)]> m)
            (<[j := Some (i, Hash c)]> row)
      end
  end.

(** The loop over [dashMap] (lines 391-401), from row [i] on. *)
Fixpoint gatherRows (i : nat) (commits : list Commit)
    (dashMap : list (gmap string BuildResult))
    (results : list (list (option Ptr)))
  : list (list (option Ptr)) * list (gmap string BuildResult) :=
  match dashMap with
  | [] => (results, [])
  | m :: dashMap' =>
      let '(row, m') :=
        gatherCells i 0 commits m (replicate (length commits) None) in
      let '(results', objects) :=
        gatherRows (S i) commits dashMap' (<[i := row]> results) in
      (results', m' :: objects)
  end.

Definition set_Commits (d : Dashboard) (commits : list Commit) : Dashboard :=
  {| d_Repo := d_Repo d; d_GoBranch := d_GoBranch d;
     d_Builders := d_Builders d; d_Commits := commits;
     d_Results := d_Results d; d_Objects := d_Objects d |}.

Definition set_Builders (d : Dashboard) (builders : list Builder) : Dashboard :=
  {| d_Repo := d_Repo d; d_GoBranch := d_GoBranch d;
     d_Builders := builders; d_Commits := d_Commits d;
     d_Results := d_Results d; d_Objects := d_Objects d |}.

Definition set_Results (d : Dashboard) (results : list (list (option Ptr)))
    (objects : list (gmap string BuildResult)) : Dashboard :=
  {| d_Repo := d_Repo d; d_GoBranch := d_GoBranch d;
     d_Builders := d_Builders d; d_Commits := d_Commits d;
     d_Results := results; d_Objects := objects |}.

(** ReadBoard: the dashboard as it leaves it, and the error it returns. *)
Definition ReadBoard (fuel : nat) (lib : Library) (c : LUCIClient)
    (dash : Dashboard) (builder : string) (since : Time)
  : run (Dashboard * option Error) :=
  _ ← when (TraceSteps c)
        (emit (EvLog (TraceStep "ReadBoard" [d_Repo dash; d_GoBranch dash])));
  commits ← ListCommits fuel c (d_Repo dash) (d_GoBranch dash) since;
  let dash := set_Commits dash commits in
  r ← ListBuilders fuel lib c (d_Repo dash) (d_GoBranch dash) builder;
  match r with
  | Failed err => ret (set_Builders dash [], Some err)
  | Resp builders =>
      let dash := set_Builders dash builders in
      '(dashMap, err) ←
        runUnits fuel lib c (d_Repo dash) since (d_Builders dash) None;
      match err with
      | Some e => ret (dash, Some e)
      | None =>
          let '(results, objects) :=
            gatherRows 0 (d_Commits dash) dashMap
              (replicate (length (d_Builders dash)) []) in
          ret (set_Results dash results objects, None)
      end
  end.

(** ** main *)

Definition shortHash (s : string) : string :=
  if (8 <? String.length s)%nat then substring 0 8 s else s.

(** [String] of a rdbpb.TestStatus. *)
Definition TestStatus_String (s : TestStatus) : string :=
  match s with
  | TestStatus_STATUS_UNSPECIFIED => "STATUS_UNSPECIFIED"
  | TestStatus_PASS => "PASS"
  | TestStatus_FAIL => "FAIL"
  | TestStatus_CRASH => "CRASH"
  | TestStatus_ABORT => "ABORT"
  | TestStatus_SKIP => "SKIP"
  end.

Definition fmt_Print (s : string) : run unit := emit (EvPrint s).

(** Lines 440-443. *)
Definition printBuilder (dash : Dashboard) (s : string) : run unit :=
  if (1 <? length (d_Builders dash))%nat then fmt_Print (s +:+ ",")
  else ret tt.

(** The body of the loop over the test results (lines 464-479). *)
Definition printTestResult (lib : Library) (dash : Dashboard)
    (b : Builder) (r : BuildResult) (rr : TestResult) : run unit :=
  let status := tr_Status rr in
  if decide (status = TestStatus_SKIP) then ret tt
  else
    let dur := tr_Duration rr in
    _ ← fmt_Print (shortHash (r_Commit r) +:+ "," +:+ fmt_Time lib (r_Time r) +:+ ",");
    _ ← printBuilder dash (Name b);
    _ ← fmt_Print (TestStatus_String status +:+ ",");
    _ ← (if decide (status = TestStatus_PASS)
         then fmt_Print (fmt_Seconds lib dur +:+ ",")
         else fmt_Print ("," +:+ fmt_Seconds lib dur));
    fmt_Print (String "010" "").

Fixpoint printTestResults (lib : Library) (dash : Dashboard)
    (b : Builder) (r : BuildResult) (rrs : list TestResult) : run unit :=
  match rrs with
  | [] => ret tt
  | rr :: rrs' =>
      _ ← printTestResult lib dash b r rr;
      printTestResults lib dash b r rrs'
  end.

(** The command-line flags. *)
Record Flags := { flag_repo : string; flag_branch : string;
                  flag_builder : string; flag_test : string }.

(** The body of the loop over one row (lines 446-480). *)
Definition queryCell (lib : Library) (c : LUCIClient) (flags : Flags)
    (dash : Dashboard) (b : Builder) (r : BuildResult) : run unit :=
  _ ← when (TraceSteps c)
        (emit (EvLog (TraceStep "QueryTestResultsRequest"
                        [Name b; shortHash (r_Commit r); fmt_Time lib (r_Time r)])));
  let req := {| Invocations := [InvocationID r];
                TestIdRegexp := regexp_QuoteMeta lib (flag_test flags) |} in
  resp ← call EvQueryTestResults (c_ResultDBClient c) req;
  match resp with
  | Failed err => log_Fatal (FatalErr err)
  | Resp resp => printTestResults lib dash b r (TestResults resp)
  end.

Fixpoint queryRow (lib : Library) (c : LUCIClient) (flags : Flags)
    (dash : Dashboard) (b : Builder) (row : list (option Ptr)) : run unit :=
  match row with
  | [] => ret tt
  | None :: row' => queryRow lib c flags dash b row'
  | Some p :: row' =>
      match deref (d_Objects dash) p with
      | None => queryRow lib c flags dash b row' (* a pointer has its object *)
      | Some r =>
          _ ← queryCell lib c flags dash b r;
          queryRow lib c flags dash b row'
      end
  end.

(** The loop over the builders (lines 444-482), from builder [i] on;
    [dash.Results[i]] panics when [i] is out of range. *)
Fixpoint queryRows (lib : Library) (c : LUCIClient) (flags : Flags)
    (dash : Dashboard) (i : nat) (builders : list Builder) : run unit :=
  match builders with
  | [] => ret tt
  | b :: builders' =>
      match d_Results dash !! i with
      | None => panic (IndexOutOfRange i (length (d_Results dash)))
      | Some row =>
          _ ← queryRow lib c flags dash b row;
          queryRows lib c flags dash (S i) builders'
      end
  end.

(** 60 * 24 * time.Hour, in nanoseconds *)
Definition sixtyDays : Z := (60 * 24 * 3600000000000)%Z.

Definition main (fuel : nat) (lib : Library) (flags : Flags) (now : Time)
  : run unit :=
  if decide (flag_test flags = "") then
    _ ← emit EvUsage;
    log_Fatal TestNameUnset
  else
    c ← NewLUCIClient lib 1;
    let c := set_TraceSteps c true in
    let startTime := (now - sixtyDays)%Z in
    let dash := {| d_Repo := flag_repo flags; d_GoBranch := flag_branch flags;
                   d_Builders := []; d_Commits := [];
                   d_Results := []; d_Objects := [] |} in
    (* the error ReadBoard returns is not looked at *)
    '(dash, _) ← ReadBoard fuel lib c dash (flag_builder flags) startTime;
    queryRows lib c flags dash 0 (d_Builders dash).

(** ** Definitions used in the statements *)

(** The requests a run sends to the commit log. *)
Fixpoint gitilesRequests (t : list Event) : list LogRequest :=
  match t with
  | [] => []
  | EvGitilesLog req :: t' => req :: gitilesRequests t'
  | _ :: t' => gitilesRequests t'
  end.

(** What a run writes to the standard output. *)
Fixpoint stdout (t : list Event) : string :=
  match t with
  | [] => ""
  | EvPrint s :: t' => s +:+ stdout t'
  | _ :: t' => stdout t'
  end.






(** The branch whose log ListCommits reads (lines 149-152). *)
Definition branchOf (repo goBranch : string) : string :=
  if decide (repo = "go") then goBranch else "master".

(** The hashes the loop over the sources leaves in [commit] and
    [goCommit]. *)
Fixpoint sourceHashes (dashRepo : string) (sources : list Value)
    (commit goCommit : string) : string * string :=
  match sources with
  | [] => (commit, goCommit)
  | s :: sources' =>
      let fm := GetStructFields (Some s) in
      let gc := match fm !! "gitilesCommit" with
                | Some v => Some v
                | None => fm !! "gitiles_commit"
                end in
      let x := GetStructFields gc in
      let c := GetStringValue (x !! "id") in
      let repo := GetStringValue (x !! "project") in
      if decide (repo = dashRepo) then sourceHashes dashRepo sources' c goCommit
      else if decide (repo = "go") then sourceHashes dashRepo sources' commit c
      else sourceHashes dashRepo sources' commit goCommit
  end.

(** The commit hash a build resolves to; the empty string when there is
    none. *)
Definition commitHash (dashRepo : string) (b : Build) : string :=
  (sourceHashes dashRepo (GetListValues (b_Properties b !! "sources")) "" "").1.

Definition goCommitHash (dashRepo : string) (b : Build) : string :=
  (sourceHashes dashRepo (GetListValues (b_Properties b !! "sources")) "" "").2.

(** The build-end time of a build (line 314). *)
Definition endTime (b : Build) : Time := AsTime (b_EndTime b).

(** The result the loop stores for a build (lines 334-380). *)
Definition resultOf (dashRepo : string) (builder : Builder) (b : Build)
  : BuildResult :=
  resolveLogs b
    (newBuildResult builder b (commitHash dashRepo b) (goCommitHash dashRepo b)
       (endTime b)).


(** The build is older than the result stored for its commit hash: the
    loop skips it at line 324. *)
Definition olderThanStored (dashRepo : string)
    (buildMap : gmap string BuildResult) (b : Build) : bool :=
  match buildMap !! commitHash dashRepo b with
  | Some r0 => Before (endTime b) (BuildTime r0)
  | None => false
  end.


(** *** The log references, as the specification words them *)

Definition linkName (l : Value) : string :=
  GetStringValue (GetStructFields (Some l) !! "name").
Definition linkURL (l : Value) : string :=
  GetStringValue (GetStructFields (Some l) !! "url").

(** The failure-metadata links of a build. *)
Definition failureLinks (b : Build) : list Value :=
  GetListValues (GetStructFields (b_Properties b !! "failure") !! "links").

Definition isCombinedOutput (l : Value) : bool :=
  strings_Contains (linkName l) "(combined output)".

Definition isStderr (l : BLog) : bool := bool_decide (Name_ l = "stderr").

Definition isStepLog (l : BLog) : bool :=
  bool_decide (Name_ l = "stderr") || bool_decide (Name_ l = "output").

(** The view URL of the build's output log named "stderr". *)
Definition stderrURL (b : Build) : string :=
  match List.find isStderr (b_Logs b) with
  | Some l => ViewUrl l
  | None => ""
  end.

(** Priority order: the first link whose name contains
    "(combined output)"; if there is none, the output log named
    "stderr". *)
Definition spec_LogURL (b : Build) : string :=
  match List.find isCombinedOutput (failureLinks b) with
  | Some l => linkURL l
  | None => stderrURL b
  end.

(** The same, except that a first link with an empty URL also gives way
    to the output log named "stderr". *)
Definition amended_LogURL (b : Build) : string :=
  match List.find isCombinedOutput (failureLinks b) with
  | Some l => if decide (linkURL l = "") then stderrURL b else linkURL l
  | None => stderrURL b
  end.

Definition failedWithLog (s : Step) : bool :=
  bool_decide (st_Status s = Status_FAILURE) && existsb isStepLog (st_Logs s).

(** The first step, from the last to the first, that has FAILURE status
    and a log named "stderr" or "output": the view URL of that log. *)
Definition spec_StepLogURL (b : Build) : string :=
  match List.find failedWithLog (rev (b_Steps b)) with
  | Some s =>
      match List.find isStepLog (st_Logs s) with
      | Some l => ViewUrl l
      | None => ""
      end
  | None => ""
  end.

(** *** The assembled dashboard *)

(** The time of the last commit of the list that has the hash [h]. *)
Definition stampOf (commits : list Commit) (h : string) : option Time :=
  Time_ <$> last (filter (λ c, Hash c = h) commits).

(** The time the loop over the commits leaves in the object stored
    under [h], whose time was [t]. *)
Fixpoint stampedTime (commits : list Commit) (h : string) (t : Time) : Time :=
  match commits with
  | [] => t
  | c :: commits' =>
      stampedTime commits' h (if decide (Hash c = h) then Time_ c else t)
  end.

(** The results of a map carry their key and the builder's name. *)
Definition keyed (builder : Builder) (m : gmap string BuildResult) : Prop :=
  ∀ h r, m !! h = Some r → r_Commit r = h ∧ r_Builder r = Name builder.

(** *** The CSV line, as the specification lays it out *)

(** The value groups of a line: commit short hash, commit time, the
    builder name when [multi], status, pass duration, fail duration. *)
Definition csvFields (multi pass : bool) (hash time builder status secs : string)
  : list string :=
  [hash; time] ++ (if multi then [builder] else [])
  ++ [status] ++ (if pass then [secs; ""] else [""; secs]).

Definition csvLine (fields : list string) : string :=
  String.concat "," fields +:+ String "010" "".

(** *** A small LUCI, for the examples *)

Definition ex_ts (s : Z) : option Timestamp := Some {| seconds := s; nanos := 0 |}.

Definition ex_page1 : LogResponse :=
  {| Log := [ {| Id := "c3"; CommitterTime := ex_ts 30 |};
              {| Id := "c2"; CommitterTime := ex_ts 20 |} ];
     lp_NextPageToken := "p2" |}.

Definition ex_page2 : LogResponse :=
  {| Log := [ {| Id := "c1"; CommitterTime := ex_ts 10 |};
              {| Id := "c0"; CommitterTime := ex_ts 5 |} ];
     lp_NextPageToken := "p3" |}.

Definition ex_page3 : LogResponse :=
  {| Log := [ {| Id := "b9"; CommitterTime := ex_ts 4 |} ];
     lp_NextPageToken := "" |}.

(** The log of refs/heads/master, in three pages, for every project. *)
Definition ex_gitiles : GitilesClient := λ req,
  if decide (lr_Committish req = "refs/heads/master") then
    if decide (lr_PageToken req = "") then Resp ex_page1
    else if decide (lr_PageToken req = "p2") then Resp ex_page2
    else if decide (lr_PageToken req = "p3") then Resp ex_page3
    else Failed "invalid page token"
  else Failed "no such branch".

Definition ex_config : BuilderConfigProperties :=
  {| Repo := "go"; GoBranch := "master"; GOARCH := "amd64"; GOOS := "linux";
     KnownIssue := 0 |}.

Definition ex_builders : BuildersClient := λ req,
  Resp {| Builders_ := [ {| bi_Builder := "b1"; bi_Properties := "{}" |} ];
          lbp_NextPageToken := "" |}.

(** The output property "sources" of a build of the commit [hash] of
    the repo "go". *)
Definition ex_sources (hash : string) : gmap string Value :=
  {[ "sources" :=
       ListValue [ StructValue {[ "gitilesCommit" :=
         StructValue {[ "id" := StringValue hash;
                        "project" := StringValue "go" ]} ]} ] ]}.

Definition ex_build (id : Z) (status : Status) (hash host : string) (ended : Z)
  : Build :=
  {| b_Id := id; b_Builder := "b1"; b_Status := status;
     b_Properties := ex_sources hash; b_Logs := []; b_Steps := [];
     b_Hostname := host; b_Invocation := "invocations/build-1";
     b_EndTime := ex_ts ended |}.

Definition ex_build1 : Build := ex_build 1 Status_FAILURE "c1" resultDBHost 100.
Definition ex_build2 : Build := ex_build 2 Status_SUCCESS "c1" resultDBHost 200.
(** A build of c1 from another result store, older than [ex_build2]. *)
Definition ex_build4 : Build := ex_build 4 Status_SUCCESS "c1" "results.example.org" 100.

Definition ex_builds : BuildsClient := λ cancelled req,
  if cancelled then Failed "context canceled"
  else Resp {| Builds := [ex_build1; ex_build2]; sbp_NextPageToken := "" |}.

Definition ex_resultdb : ResultDBClient := λ req,
  Resp {| TestResults :=
            [ {| tr_Status := TestStatus_PASS; tr_Duration := 1500000000 |};
              {| tr_Status := TestStatus_SKIP; tr_Duration := 0 |};
              {| tr_Status := TestStatus_FAIL; tr_Duration := 2000000000 |} ] |}.

Definition ex_lib_with (gitiles : GitilesClient) (builds : BuildsClient) : Library :=
  {| gitiles_NewRESTClient := λ host,
       if strings_Contains host "/" then Failed "invalid host"
       else Resp gitiles;
     bbpb_NewBuildsClient := λ _, builds;
     bbpb_NewBuildersClient := λ _, ex_builders;
     rdbpb_NewResultDBClient := λ _, ex_resultdb;
     fieldmaskpb_New := Resp;
     json_Unmarshal := λ _, ex_config;
     slices_SortByName := λ builders, builders;
     regexp_QuoteMeta := λ s, s;
     fmt_Time := λ _, "T";
     fmt_Seconds := λ _, "S" |}.

Definition ex_lib : Library := ex_lib_with ex_gitiles ex_builds.

Definition ex_client : LUCIClient :=
  {| c_GitilesClient := ex_gitiles;
     c_BuildsClient := ex_builds;
     c_BuildersClient := ex_builders;
     c_ResultDBClient := ex_resultdb;
     TraceSteps := true;
     nProc := 1 |}.

Definition ex_builder : Builder := {| Name := "b1"; b_Config := ex_config |}.

Definition ex_dash : Dashboard :=
  {| d_Repo := "go"; d_GoBranch := "master"; d_Builders := []; d_Commits := [];
     d_Results := []; d_Objects := [] |}.

Definition ex_flags : Flags :=
  {| flag_repo := "go"; flag_branch := "master"; flag_builder := "";
     flag_test := "TestX" |}.

(** ten seconds after the epoch *)
Definition ex_since : Time := 10000000000%Z.

(** A builds service that is down. *)
Definition ex_builds_down : BuildsClient := λ _ _, Failed "unavailable".

(** A commit log that lists the hash c1 twice, at two times. *)
Definition ex_gitiles_twice : GitilesClient := λ req,
  Resp {| Log := [ {| Id := "c1"; CommitterTime := ex_ts 20 |};
                   {| Id := "c1"; CommitterTime := ex_ts 10 |} ];
          lp_NextPageToken := "" |}.

(** A FAILURE build whose "(combined output)" link has no URL, and whose
    output has a log named "stderr". *)
Definition ex_build_nolink : Build :=
  {| b_Id := 5; b_Builder := "b1"; b_Status := Status_FAILURE;
     b_Properties :=
       <[ "failure" :=
            StructValue {[ "links" :=
              ListValue [ StructValue
                {[ "name" := StringValue "all.bash (combined output)" ]} ] ]} ]>
         (ex_sources "c1");
     b_Logs := [ {| Name_ := "stdout"; ViewUrl := "https://logs/stdout" |};
                 {| Name_ := "stderr"; ViewUrl := "https://logs/stderr" |} ];
     b_Steps :=
       [ {| st_Status := Status_FAILURE;
            st_Logs := [ {| Name_ := "output"; ViewUrl := "https://logs/step1" |} ] |};
         {| st_Status := Status_SUCCESS;
            st_Logs := [ {| Name_ := "stderr"; ViewUrl := "https://logs/step2" |} ] |};
         {| st_Status := Status_FAILURE; st_Logs := [] |} ];
     b_Hostname := resultDBHost; b_Invocation := "invocations/build-5";
     b_EndTime := ex_ts 300 |}.

Definition ex_client_with (gitiles : GitilesClient) (builds : BuildsClient)
  : LUCIClient :=
  {| c_GitilesClient := gitiles;
     c_BuildsClient := builds;
     c_BuildersClient := ex_builders;
     c_ResultDBClient := ex_resultdb;
     TraceSteps := true;
     nProc := 1 |}.

(** The map of [ex_builder] once it holds the result of one build. *)
Definition ex_map (b : Build) : gmap string BuildResult :=
  {[ commitHash "go" b := resultOf "go" ex_builder b ]}.

(** The dashboard a run of ReadBoard leaves; [ex_dash] if the run does
    not return. *)
Definition boardOf (r : run (Dashboard * option Error)) : Dashboard :=
  match result r with
  | Ret (dash, _) => dash
  | _ => ex_dash
  end.

(** The dashboard of the small LUCI. *)
Definition ex_board : Dashboard :=
  boardOf (ReadBoard 3 ex_lib ex_client ex_dash "" ex_since).

(** The dashboard of the commit log that lists c1 twice. *)
Definition ex_board_twice : Dashboard :=
  boardOf (ReadBoard 3 (ex_lib_with ex_gitiles_twice ex_builds)
             (ex_client_with ex_gitiles_twice ex_builds) ex_dash "" ex_since).

(** ** More of luci.go *)

(** [buildURL] (lines 406-408): [pretty] writes an integer in decimal,
    with a minus sign when it is negative, as the verb %d does. *)
Definition buildURL (buildID : Z) : string :=
  "https://ci.chromium.org/b/" +:+ pretty buildID.

(** *** Page by page *)

(** The requests a run sends to the builder service, to the build
    search (with the state of the context) and to the result store. *)
Fixpoint listBuildersRequests (t : list Event) : list ListBuildersRequest :=
  match t with
  | [] => []
  | EvListBuilders req :: t' => req :: listBuildersRequests t'
  | _ :: t' => listBuildersRequests t'
  end.

Fixpoint searchBuildsRequests (t : list Event)
  : list (bool * SearchBuildsRequest) :=
  match t with
  | [] => []
  | EvSearchBuilds cancelled req :: t' =>
      (cancelled, req) :: searchBuildsRequests t'
  | _ :: t' => searchBuildsRequests t'
  end.

Fixpoint queryRequests (t : list Event) : list QueryTestResultsRequest :=
  match t with
  | [] => []
  | EvQueryTestResults req :: t' => req :: queryRequests t'
  | _ :: t' => queryRequests t'
  end.

(** The token each page of a chain is asked with: [tok] for the first,
    then the next page token of the page before. *)
Fixpoint tokens {A} (next : A → string) (tok : string) (pages : list A)
  : list string :=
  match pages with
  | [] => []
  | p :: pages' => tok :: tokens next (next p) pages'
  end.

(** The token to ask with after the pages of a chain. *)
Fixpoint tokenAfter {A} (next : A → string) (tok : string) (pages : list A)
  : string :=
  match pages with
  | [] => tok
  | p :: pages' => tokenAfter next (next p) pages'
  end.

(** [chain srv next tok pages]: asked page after page from the token
    [tok] on, the service answers with [pages], the last of which has no
    next page token. *)
Inductive chain {A} (srv : string → rpc A) (next : A → string)
  : string → list A → Prop :=
  | chain_last tok resp :
      srv tok = Resp resp → next resp = "" → chain srv next tok [resp]
  | chain_next tok resp pages :
      srv tok = Resp resp → next resp ≠ "" →
      chain srv next (next resp) pages →
      chain srv next tok (resp :: pages).

(** [broken srv next tok pages e]: the service answers with [pages],
    each with a next page token, and then fails with [e]. *)
Inductive broken {A} (srv : string → rpc A) (next : A → string)
  : string → list A → Error → Prop :=
  | broken_here tok e :
      srv tok = Failed e → broken srv next tok [] e
  | broken_later tok resp pages e :
      srv tok = Resp resp → next resp ≠ "" →
      broken srv next (next resp) pages e →
      broken srv next tok (resp :: pages) e.

(** The builder service, the build search and the commit log, by page
    token. *)
Definition buildersByToken (c : LUCIClient) (tok : string)
  : rpc ListBuildersResponse :=
  c_BuildersClient c (listBuildersRequest tok).

Definition buildsByToken (c : LUCIClient) (cancelled : bool)
    (builder : string) (since : Time) (mask : list string) (tok : string)
  : rpc SearchBuildsResponse :=
  c_BuildsClient c cancelled (searchBuildsRequest builder since mask tok).




(** *** The sources of a build *)

(** The source entries of a build (line 287). *)
Definition sourcesOf (b : Build) : list Value :=
  GetListValues (b_Properties b !! "sources").

(** The gitiles commit of a source entry, under the key "gitilesCommit"
    or, when that key is absent, "gitiles_commit" (lines 288-293). *)
Definition gitilesCommitOf (s : Value) : gmap string Value :=
  let fm := GetStructFields (Some s) in
  GetStructFields (match fm !! "gitilesCommit" with
                   | Some v => Some v
                   | None => fm !! "gitiles_commit"
                   end).

Definition sourceProject (s : Value) : string :=
  GetStringValue (gitilesCommitOf s !! "project").

Definition sourceId (s : Value) : string :=
  GetStringValue (gitilesCommitOf s !! "id").

(** The id of the last source entry of the project [repo]; the empty
    string when there is none. *)
Definition lastIdOf (repo : string) (sources : list Value) : string :=
  default "" (sourceId <$> last (filter (λ s, sourceProject s = repo) sources)).

Definition hasHash (dashRepo : string) (b : Build) : bool :=
  bool_decide (commitHash dashRepo b ≠ "").

(** The ids of the builds a run logs as having an empty commit, and the
    projects it logs as mismatched. *)
Fixpoint emptyCommits (t : list Event) : list Z :=
  match t with
  | [] => []
  | EvLog (EmptyCommit id) :: t' => id :: emptyCommits t'
  | _ :: t' => emptyCommits t'
  end.

Fixpoint repoMismatches (t : list Event) : list string :=
  match t with
  | [] => []
  | EvLog (RepoMismatch repo _ _) :: t' => repo :: repoMismatches t'
  | _ :: t' => repoMismatches t'
  end.

(** *** The extraction loop of main *)

(** The request main sends for a result (lines 452-457). *)
Definition queryOf (lib : Library) (flags : Flags) (r : BuildResult)
  : QueryTestResultsRequest :=
  {| Invocations := [InvocationID r];
     TestIdRegexp := regexp_QuoteMeta lib (flag_test flags) |}.

(** The line of a test result that is not skipped. *)
Definition lineOf (lib : Library) (dash : Dashboard) (b : Builder)
    (r : BuildResult) (rr : TestResult) : string :=
  csvLine (csvFields
             (bool_decide (1 < length (d_Builders dash)))
             (bool_decide (tr_Status rr = TestStatus_PASS))
             (shortHash (r_Commit r)) (fmt_Time lib (r_Time r))
             (Name b) (TestStatus_String (tr_Status rr))
             (fmt_Seconds lib (tr_Duration rr))).

Definition notSkipped (rr : TestResult) : bool :=
  bool_decide (tr_Status rr ≠ TestStatus_SKIP).

(** Texts one after the other. *)
Definition joined (l : list string) : string := foldr String.append "" l.

(** The lines of the test results of one cell. *)
Definition linesOf (lib : Library) (dash : Dashboard) (b : Builder)
    (r : BuildResult) (rrs : list TestResult) : string :=
  joined (map (lineOf lib dash b r) (List.filter notSkipped rrs)).

(** The results the cells of a row point to, in the order of the
    columns. *)
Definition rowResults (dash : Dashboard) (row : list (option Ptr))
  : list BuildResult :=
  omap (λ cell : option Ptr, cell ≫= deref (d_Objects dash)) row.

(** The results of the rows from row [i] on, row by row, each with the
    builder of its row. *)
Definition rowsFrom (dash : Dashboard) (i : nat) (builders : list Builder)
  : list (Builder * BuildResult) :=
  concat (zip_with (λ b row, (λ r, (b, r)) <$> rowResults dash row)
            builders (drop i (d_Results dash))).

(** What main prints for a result: the lines of the test results the
    result store answers with. *)
Definition cellOutput (lib : Library) (c : LUCIClient) (flags : Flags)
    (dash : Dashboard) (br : Builder * BuildResult) : string :=
  match c_ResultDBClient c (queryOf lib flags br.2) with
  | Resp resp => linesOf lib dash br.1 br.2 (TestResults resp)
  | Failed _ => ""
  end.

(** *** More of the small LUCI *)

Definition ex_client_of (gitiles : GitilesClient) (builds : BuildsClient)
    (builders : BuildersClient) (resultdb : ResultDBClient) : LUCIClient :=
  {| c_GitilesClient := gitiles;
     c_BuildsClient := builds;
     c_BuildersClient := builders;
     c_ResultDBClient := resultdb;
     TraceSteps := true;
     nProc := 1 |}.


Definition ex_builders_page1 : ListBuildersResponse :=
  {| Builders_ := [ {| bi_Builder := "b1"; bi_Properties := "{}" |} ];
     lbp_NextPageToken := "b2" |}.

(** A builder service that answers the first page and fails on the
    second. *)
Definition ex_builders_broken : BuildersClient := λ req,
  if decide (lb_PageToken req = "") then Resp ex_builders_page1
  else Failed "deadline exceeded".

Definition ex_builds_page : SearchBuildsResponse :=
  {| Builds := [ex_build1; ex_build2]; sbp_NextPageToken := "" |}.

(** The library with a field mask that cannot be made. *)
Definition ex_lib_nomask : Library :=
  {| gitiles_NewRESTClient := gitiles_NewRESTClient ex_lib;
     bbpb_NewBuildsClient := bbpb_NewBuildsClient ex_lib;
     bbpb_NewBuildersClient := bbpb_NewBuildersClient ex_lib;
     rdbpb_NewResultDBClient := rdbpb_NewResultDBClient ex_lib;
     fieldmaskpb_New := λ _, Failed "invalid path";
     json_Unmarshal := json_Unmarshal ex_lib;
     slices_SortByName := slices_SortByName ex_lib;
     regexp_QuoteMeta := regexp_QuoteMeta ex_lib;
     fmt_Time := fmt_Time ex_lib;
     fmt_Seconds := fmt_Seconds ex_lib |}.

(** A SUCCESS build without output properties. *)
Definition ex_build_nohash : Build :=
  {| b_Id := 6; b_Builder := "b1"; b_Status := Status_SUCCESS;
     b_Properties := ∅; b_Logs := []; b_Steps := [];
     b_Hostname := resultDBHost; b_Invocation := "invocations/build-6";
     b_EndTime := ex_ts 400 |}.

(** A result store that is down. *)
Definition ex_resultdb_down : ResultDBClient := λ _, Failed "permission denied".

Definition ex_commits : list Commit :=
  [ {| Hash := "c3"; Time_ := 30000000000%Z |};
    {| Hash := "c2"; Time_ := 20000000000%Z |};
    {| Hash := "c1"; Time_ := 10000000000%Z |} ].

(** * Properties *)

(** ** Runs *)

Lemma bind_call {Rq Rs B} (ev : Rq → Event) (srv : Rq → rpc Rs) (req : Rq)
    (k : rpc Rs → run B) :
  (call ev srv req ≫= k)
  = Run (ev req :: trace (k (srv req))) (result (k (srv req))).
Proof. reflexivity. Qed.

Lemma bind_when {B} (b : bool) (e : Event) (k : unit → run B) :
  (when b (emit e) ≫= k)
  = Run ((if b then [e] else []) ++ trace (k tt)) (result (k tt)).
Proof. destruct b; reflexivity. Qed.

Lemma result_bind {A B} (m : run A) (k : A → run B) (a : A) :
  result m = Ret a → result (m ≫= k) = result (k a).
Proof. unfold mbind, run_bind, bind. intros ->. reflexivity. Qed.

Lemma trace_bind {A B} (m : run A) (k : A → run B) (a : A) :
  result m = Ret a → trace (m ≫= k) = trace m ++ trace (k a).
Proof. unfold mbind, run_bind, bind. intros ->. reflexivity. Qed.

Lemma result_bind_inv {A B} (m : run A) (k : A → run B) (b : B) :
  result (m ≫= k) = Ret b → ∃ a, result m = Ret a ∧ result (k a) = Ret b.
Proof.
  unfold mbind, run_bind, bind. destruct (result m) as [a| | |]; simpl; try discriminate.
  intros H. exists a. split; [reflexivity | exact H].
Qed.

(** ** NewLUCIClient *)

(** C10. NewLUCIClient panics for every nProc below 1; for every nProc
    of at least 1 it does not panic, and, the gitiles REST client for the
    fixed host being constructed, it returns a client whose nProc is the
    argument. *)
Theorem NewLUCIClient_nProc (lib : Library) (n : Z) :
  ((n < 1)%Z → result (NewLUCIClient lib n) = Panic (NProcPanic n))
  ∧ ((1 ≤ n)%Z →
     (∀ m, result (NewLUCIClient lib n) ≠ Panic m)
     ∧ ∀ gc, gitiles_NewRESTClient lib gitilesHost = Resp gc →
         ∃ c, result (NewLUCIClient lib n) = Ret c ∧ nProc c = n).
Proof.
  unfold NewLUCIClient. split.
  - intros Hn. apply Z.ltb_lt in Hn. rewrite Hn. reflexivity.
  - intros Hn. apply Z.ltb_ge in Hn. rewrite Hn. split.
    + intros m. destruct (gitiles_NewRESTClient lib gitilesHost); discriminate.
    + intros gc ->. eexists. split; reflexivity.
Qed.

(** ** ListCommits *)




(** Every request of the page loop is for the same project and branch. *)
Lemma ListCommits_nextPage_requests fuel c repo branch since commits tok req :
  req ∈ gitilesRequests
          (trace (ListCommits_nextPage fuel c repo branch since commits tok)) →
  ∃ tok', req = logRequest repo branch tok'.
Proof.
  revert commits tok. induction fuel as [|fuel IH]; intros commits tok; simpl.
  - intros H. by apply elem_of_nil in H.
  - simpl.
    intros [->|H]%elem_of_cons; [by eexists|].
    destruct (c_GitilesClient c (logRequest repo branch tok)) as [resp|e];
      simpl in H; [|by apply elem_of_nil in H].
    destruct (scanLog since (Log resp) commits) as [commits' [|]];
      simpl in H; [by apply elem_of_nil in H|].
    destruct (decide (lp_NextPageToken resp ≠ "")); simpl in H;
      [by eapply IH | by apply elem_of_nil in H].
Qed.




(** C9. For a repo other than "go" every request ListCommits sends is
    for refs/heads/master, whatever the branch argument, and neither the
    requests nor the result depend on the branch argument; for the repo
    "go" the requests are for the branch argument. *)
Theorem ListCommits_branch fuel c repo goBranch since :
  (repo ≠ "go" →
     (∀ req, req ∈ gitilesRequests (trace (ListCommits fuel c repo goBranch since)) →
        lr_Committish req = "refs/heads/master")
     ∧ (fuel ≠ 0 →
        head (gitilesRequests (trace (ListCommits fuel c repo goBranch since)))
        = Some (logRequest repo "master" ""))
     ∧ ∀ goBranch',
         gitilesRequests (trace (ListCommits fuel c repo goBranch' since))
         = gitilesRequests (trace (ListCommits fuel c repo goBranch since))
         ∧ result (ListCommits fuel c repo goBranch' since)
           = result (ListCommits fuel c repo goBranch since))
  ∧ (repo = "go" →
     ∀ req, req ∈ gitilesRequests (trace (ListCommits fuel c repo goBranch since)) →
       lr_Committish req = "refs/heads/" +:+ goBranch).
Proof.
  assert (Hreqs : ∀ b, gitilesRequests (trace (ListCommits fuel c repo b since))
            = gitilesRequests
                (trace (ListCommits_nextPage fuel c repo (branchOf repo b) since [] ""))).
  { intros b. unfold ListCommits. rewrite bind_when. simpl.
    fold (branchOf repo b). by destruct (TraceSteps c). }
  assert (Hress : ∀ b, result (ListCommits fuel c repo b since)
            = result (ListCommits_nextPage fuel c repo (branchOf repo b) since [] "")).
  { intros b. unfold ListCommits. by rewrite bind_when. }
  split.
  - intros Hne.
    assert (Hb : ∀ b, branchOf repo b = "master").
    { intros b. unfold branchOf. by rewrite decide_False. }
    split; [|split].
    + intros req. rewrite Hreqs, Hb.
      intros [tok' ->]%ListCommits_nextPage_requests. reflexivity.
    + intros Hfuel. rewrite Hreqs, Hb.
      destruct fuel as [|fuel]; [done|]. done.
    + intros b'. by rewrite !Hreqs, !Hress, !Hb.
  - intros Heq req. rewrite Hreqs. unfold branchOf. rewrite decide_True by done.
    intros [tok' ->]%ListCommits_nextPage_requests. reflexivity.
Qed.

(** ** Reconciliation *)

Lemma scanSources_result dashRepo id sources commit goCommit :
  result (scanSources dashRepo id sources commit goCommit)
  = Ret (sourceHashes dashRepo sources commit goCommit).
Proof.
  revert commit goCommit.
  induction sources as [|s sources IH]; intros commit goCommit; simpl; [done|].
  repeat case_decide; try apply IH.
Qed.

(** The result of one iteration of the loop over the builds. *)
Lemma reconcileBuild_result dashRepo builder buildMap b :
  result (reconcileBuild dashRepo builder buildMap b)
  = if decide (commitHash dashRepo b = "") then Ret buildMap
    else if olderThanStored dashRepo buildMap b then Ret buildMap
    else if decide (b_Hostname b ≠ resultDBHost)
    then Fatal (HostMismatch (b_Hostname b) resultDBHost (b_Id b))
    else if decide (b_Builder b ≠ Name builder)
    then Fatal (BuilderMismatch (b_Builder b) (Name builder) (b_Id b))
    else Ret (<[commitHash dashRepo b := resultOf dashRepo builder b]> buildMap).
Proof.
  unfold reconcileBuild.
  erewrite result_bind by apply scanSources_result.
  unfold olderThanStored, resultOf, commitHash, goCommitHash, endTime.
  destruct (sourceHashes dashRepo _ "" "") as [commit goCommit]; simpl.
  destruct (decide (commit = "")) as [->|Hne].
  - by destruct (bool_decide (b_Status b = Status_SUCCESS)).
  - destruct (match buildMap !! commit with
              | Some r0 => Before (AsTime (b_EndTime b)) (BuildTime r0)
              | None => false
              end); [done|].
    repeat case_decide; done.
Qed.

(** The log references are the only fields [resolveLogs] writes. *)
Lemma resolveLogs_fields b r :
  ID (resolveLogs b r) = ID r
  ∧ r_Status (resolveLogs b r) = r_Status r
  ∧ r_Commit (resolveLogs b r) = r_Commit r
  ∧ r_Time (resolveLogs b r) = r_Time r
  ∧ BuildTime (resolveLogs b r) = BuildTime r
  ∧ r_Builder (resolveLogs b r) = r_Builder r.
Proof.
  unfold resolveLogs. destruct (decide (r_Status r = Status_FAILURE)); [|done].
  simpl. by destruct (decide (scanLinks _ _ = "")).
Qed.

Lemma resultOf_BuildTime dashRepo builder b :
  BuildTime (resultOf dashRepo builder b) = endTime b.
Proof. unfold resultOf. by rewrite (proj1 (proj2 (proj2 (proj2 (proj2 (resolveLogs_fields _ _)))))). Qed.

Lemma resultOf_Commit dashRepo builder b :
  r_Commit (resultOf dashRepo builder b) = commitHash dashRepo b.
Proof. unfold resultOf. by rewrite (proj1 (proj2 (proj2 (resolveLogs_fields _ _)))). Qed.

Lemma resultOf_Builder dashRepo builder b :
  r_Builder (resultOf dashRepo builder b) = Name builder.
Proof. unfold resultOf. by rewrite (proj2 (proj2 (proj2 (proj2 (proj2 (resolveLogs_fields _ _)))))). Qed.



(** One iteration either leaves the map as it is, for a build without a
    commit hash or older than the stored result, or stores the build's
    result over a result that is not newer. *)
Lemma reconcileBuild_step dashRepo builder m0 b m1 :
  result (reconcileBuild dashRepo builder m0 b) = Ret m1 →
  (m1 = m0
   ∧ (commitHash dashRepo b = ""
      ∨ ∃ r0, m0 !! commitHash dashRepo b = Some r0
              ∧ (endTime b < BuildTime r0)%Z))
  ∨ (commitHash dashRepo b ≠ ""
     ∧ m1 = <[commitHash dashRepo b := resultOf dashRepo builder b]> m0
     ∧ ∀ r0, m0 !! commitHash dashRepo b = Some r0 →
         (BuildTime r0 ≤ endTime b)%Z).
Proof.
  rewrite reconcileBuild_result. unfold olderThanStored, Before.
  destruct (decide (commitHash dashRepo b = "")) as [He|Hne].
  { intros [= <-]. left. split; [done | by left]. }
  destruct (m0 !! commitHash dashRepo b) as [r0|] eqn:Hr0.
  - destruct (Z.ltb_spec (endTime b) (BuildTime r0)) as [Hlt|Hge].
    { intros [= <-]. left. split; [done|]. right. by exists r0. }
    repeat case_decide; try discriminate. intros [= <-]. right.
    split; [done|]. split; [done|]. by intros ? [= <-].
  - repeat case_decide; try discriminate. intros [= <-]. right.
    split; [done|]. split; [done|]. by intros ? [=].
Qed.

(** What a successful reconciliation leaves under a hash [h]: a result
    that was in the map or is the result of one of the builds, and that
    ended no earlier than any of them; and nothing only if no build of
    the list resolves to [h]. *)
Lemma reconcile_inv dashRepo builder builds :
  ∀ m0 m, result (reconcile dashRepo builder m0 builds) = Ret m →
  ∀ h,
    (∀ r, m !! h = Some r →
       (m0 !! h = Some r
        ∨ ∃ b, b ∈ builds ∧ commitHash dashRepo b = h ∧ h ≠ ""
               ∧ r = resultOf dashRepo builder b)
       ∧ (∀ r0, m0 !! h = Some r0 → (BuildTime r0 ≤ BuildTime r)%Z)
       ∧ (∀ b, b ∈ builds → commitHash dashRepo b = h → h ≠ "" →
            (endTime b ≤ BuildTime r)%Z))
    ∧ (m !! h = None →
       m0 !! h = None
       ∧ ∀ b, b ∈ builds → commitHash dashRepo b = h → h = "").
Proof.
  induction builds as [|b builds IH]; intros m0 m; simpl.
  { intros [= <-] h. split.
    - intros r Hr. split; [by left|]. split.
      + intros r0. rewrite Hr. intros [= <-]. lia.
      + intros b Hb. by apply elem_of_nil in Hb.
    - intros Hn. split; [done|]. intros b Hb. by apply elem_of_nil in Hb. }
  intros Hrun. apply result_bind_inv in Hrun as (m1 & Hstep & Hrest).
  apply reconcileBuild_step in Hstep. intros h.
  destruct (IH _ _ Hrest h) as [IHs IHn]. clear IH Hrest.
  destruct Hstep as [[-> Hskip]|(Hne & -> & Hnew)].
  - (* the build is skipped *)
    split.
    + intros r Hr. destruct (IHs r Hr) as (Hfrom & Hm0 & Hl).
      split; [|split].
      * destruct Hfrom as [?|(b' & ? & ?)]; [by left|].
        right. exists b'. split; [by apply elem_of_cons; right | done].
      * done.
      * intros b' [->|Hb']%elem_of_cons Hh Hhne; [|by apply Hl].
        destruct Hskip as [He|(r0 & Hr0 & Hlt)]; [congruence|].
        rewrite Hh in Hr0. specialize (Hm0 _ Hr0). lia.
    + intros Hn. destruct (IHn Hn) as [Hm0 Hl]. split; [done|].
      intros b' [->|Hb']%elem_of_cons Hh; [|by apply (Hl b')].
      destruct Hskip as [He|(r0 & Hr0 & Hlt)]; [congruence|].
      rewrite Hh in Hr0. congruence.
  - (* the result of the build is stored *)
    destruct (decide (commitHash dashRepo b = h)) as [Heq|Hdiff].
    + subst h. rewrite lookup_insert_eq in IHs, IHn. split.
      * intros r Hr. destruct (IHs r Hr) as (Hfrom & Hm1 & Hl).
        specialize (Hm1 _ eq_refl). rewrite resultOf_BuildTime in Hm1.
        split; [|split].
        -- right. destruct Hfrom as [[= <-]|(b' & ? & ?)].
           ++ exists b. split; [by apply elem_of_cons; left | done].
           ++ exists b'. split; [by apply elem_of_cons; right | done].
        -- intros r0 Hr0. specialize (Hnew _ Hr0). lia.
        -- intros b' [->|Hb']%elem_of_cons Hh Hhne; [lia | by apply Hl].
      * intros Hn. by destruct (IHn Hn).
    + rewrite lookup_insert_ne in IHs, IHn by done. split.
      * intros r Hr. destruct (IHs r Hr) as (Hfrom & Hm1 & Hl).
        split; [|split]; [|done|].
        -- destruct Hfrom as [?|(b' & ? & ?)]; [by left|].
           right. exists b'. split; [by apply elem_of_cons; right | done].
        -- intros b' [->|Hb']%elem_of_cons Hh Hhne; [done | by apply Hl].
      * intros Hn. destruct (IHn Hn) as [Hm0 Hl]. split; [done|].
        intros b' [->|Hb']%elem_of_cons Hh; [done | by apply (Hl b')].
Qed.



(** ** The log references of a FAILURE build *)

Lemma scanLinks_find links :
  scanLinks links ""
  = match List.find isCombinedOutput links with
    | Some l => linkURL l
    | None => ""
    end.
Proof.
  induction links as [|l links IH]; simpl; [done|].
  unfold isCombinedOutput at 1, linkName, linkURL.
  by destruct (strings_Contains _ _).
Qed.

Lemma scanOutputLogs_find logs :
  scanOutputLogs logs ""
  = match List.find isStderr logs with
    | Some l => ViewUrl l
    | None => ""
    end.
Proof.
  induction logs as [|l logs IH]; simpl; [done|].
  unfold isStderr at 1.
  destruct (decide (Name_ l = "stderr")) as [H|H].
  - by rewrite bool_decide_eq_true_2.
  - by rewrite bool_decide_eq_false_2.
Qed.

Lemma scanStepLogs_find logs :
  scanStepLogs logs = ViewUrl <$> List.find isStepLog logs.
Proof.
  induction logs as [|l logs IH]; simpl; [done|].
  unfold isStepLog at 1.
  by destruct (bool_decide (Name_ l = "stderr") || bool_decide (Name_ l = "output")).
Qed.

Lemma find_existsb {A} (f : A → bool) (l : list A) :
  existsb f l = bool_decide (is_Some (List.find f l)).
Proof.
  induction l as [|x l IH]; simpl; [done|].
  destruct (f x); simpl; done.
Qed.

(** The step loop from index [n - 1] down is a search of the first [n]
    steps in reverse. *)
Lemma stepLoop_find steps n :
  stepLoop steps n ""
  = match List.find failedWithLog (rev (take n steps)) with
    | Some s =>
        match List.find isStepLog (st_Logs s) with
        | Some l => ViewUrl l
        | None => ""
        end
    | None => ""
    end.
Proof.
  induction n as [|i IH]; simpl; [done|].
  destruct (steps !! i) as [s|] eqn:Hs.
  - rewrite (take_S_r _ _ _ Hs), rev_unit. simpl.
    unfold failedWithLog at 1. rewrite find_existsb, scanStepLogs_find.
    destruct (decide (st_Status s = Status_FAILURE)) as [Hf|Hf].
    + rewrite bool_decide_eq_true_2 by done. simpl.
      destruct (List.find isStepLog (st_Logs s)) as [l|] eqn:Hl; simpl;
        by rewrite ?Hl.
    + rewrite bool_decide_eq_false_2 by done. done.
  - apply lookup_ge_None in Hs.
    rewrite IH. by rewrite !take_ge by lia.
Qed.

(** C6 (amended). For a build with FAILURE status the log URL is the URL
    of the first failure link whose name contains "(combined output)";
    if there is no such link, or the URL of the first one is empty, it is
    the view URL of the first output log named "stderr".  The step-log URL
    is the view URL of the first log named "stderr" or "output" of the
    first step, from the last to the first, that has FAILURE status and
    such a log. *)
Theorem resolveLogs_failure dashRepo builder b :
  b_Status b = Status_FAILURE →
  LogURL (resultOf dashRepo builder b) = amended_LogURL b
  ∧ StepLogURL (resultOf dashRepo builder b) = spec_StepLogURL b.
Proof.
  intros Hf. unfold resultOf, resolveLogs. simpl.
  rewrite decide_True by done.
  fold (failureLinks b). rewrite scanLinks_find.
  unfold amended_LogURL, spec_StepLogURL, stderrURL. split.
  - destruct (List.find isCombinedOutput (failureLinks b)) as [l|]; simpl.
    + destruct (decide (linkURL l = "")) as [He|Hne]; simpl; [|done].
      rewrite He. apply scanOutputLogs_find.
    + apply scanOutputLogs_find.
  - transitivity (stepLoop (b_Steps b) (length (b_Steps b)) "").
    + by destruct (decide _).
    + rewrite stepLoop_find. by rewrite firstn_all.
Qed.

(** ** ReadBoard: the assembled dashboard *)

Lemma reconcile_keyed dashRepo builder builds m :
  result (reconcile dashRepo builder ∅ builds) = Ret m → keyed builder m.
Proof.
  intros Hm h r Hr.
  destruct (reconcile_inv _ _ _ _ _ Hm h) as [Hs _].
  destruct (Hs r Hr) as ([Habs|(b & _ & Hh & _ & ->)] & _);
    [by rewrite lookup_empty in Habs|].
  by rewrite resultOf_Commit, resultOf_Builder.
Qed.

Lemma builderUnit_keyed fuel lib c dashRepo cancelled builder since e m :
  result (builderUnit fuel lib c dashRepo cancelled builder since) = Ret (e, m) →
  keyed builder m.
Proof.
  unfold builderUnit. intros H.
  apply result_bind_inv in H as ([builds|err] & _ & H).
  - apply result_bind_inv in H as (m' & Hm' & H). simpl in H.
    injection H as <- <-. by eapply reconcile_keyed.
  - simpl in H. injection H as <- <-. intros h r Hr.
    by rewrite lookup_empty in Hr.
Qed.

Lemma runUnits_keyed fuel lib c dashRepo since builders :
  ∀ err dashMap err',
    result (runUnits fuel lib c dashRepo since builders err) = Ret (dashMap, err') →
    Forall2 keyed builders dashMap.
Proof.
  induction builders as [|b builders IH]; intros err dashMap err'; simpl.
  - intros [= <- <-]. constructor.
  - intros H. apply result_bind_inv in H as ([e m] & Hunit & H).
    apply result_bind_inv in H as ([ms err''] & Hrest & H).
    simpl in H. injection H as <- <-.
    constructor; [by eapply builderUnit_keyed | by eapply IH].
Qed.

Lemma stampedTime_stampOf commits h :
  ∀ t, stampedTime commits h t = default t (stampOf commits h).
Proof.
  unfold stampOf. induction commits as [|c commits IH]; intros t; simpl; [done|].
  rewrite IH, filter_cons.
  destruct (decide (Hash c = h)) as [Heq|Hne]; [|done].
  destruct (filter (λ c0, Hash c0 = h) commits) as [|c' l] eqn:Hf;
    simpl; [done|].
  change (last (c :: c' :: l)) with (last (c' :: l)).
  destruct (last (c' :: l)) as [x|] eqn:Hl; [done|].
  by apply last_None in Hl.
Qed.

Lemma stampOf_agree commits h t :
  (∀ c, c ∈ commits → Hash c = h → Time_ c = t) →
  stampOf commits h = None ∨ stampOf commits h = Some t.
Proof.
  intros Hall. unfold stampOf.
  destruct (last (filter (λ c, Hash c = h) commits)) as [c|] eqn:Hl; [|by left].
  right. simpl. f_equal.
  apply last_Some_elem_of in Hl. apply list_elem_of_filter in Hl as [Hh Hc].
  by apply Hall.
Qed.

Lemma stampOf_is_Some commits j c :
  commits !! j = Some c → is_Some (stampOf commits (Hash c)).
Proof.
  intros Hj. unfold stampOf.
  assert (Hin : c ∈ filter (λ c0, Hash c0 = Hash c) commits).
  { apply list_elem_of_filter. split; [done|]. by eapply list_elem_of_lookup_2. }
  destruct (filter (λ c0, Hash c0 = Hash c) commits) as [|x l] eqn:Hf using rev_ind.
  - by apply elem_of_nil in Hin.
  - rewrite last_snoc. by eexists.
Qed.

(** The objects of a builder after the loop over the commits: the
    objects of its map, their time overwritten by the commits that have
    their hash. *)
Lemma gatherCells_objects i commits :
  ∀ j m row h,
    (gatherCells i j commits m row).2 !! h
    = (λ r, set_Time r (stampedTime commits h (r_Time r))) <$> m !! h.
Proof.
  induction commits as [|c commits IH]; intros j m row h; simpl.
  - destruct (m !! h) as [r|]; [|done]. simpl. by destruct r.
  - destruct (m !! Hash c) as [r|] eqn:Hr.
    + rewrite IH. destruct (decide (Hash c = h)) as [<-|Hne].
      * rewrite lookup_insert_eq, Hr. done.
      * by rewrite lookup_insert_ne.
    + rewrite IH. destruct (decide (Hash c = h)) as [<-|Hne]; [|done].
      by rewrite Hr.
Qed.

Lemma gatherCells_length i commits :
  ∀ j m row, length (gatherCells i j commits m row).1 = length row.
Proof.
  induction commits as [|c commits IH]; intros j m row; simpl; [done|].
  destruct (m !! Hash c); rewrite IH; [apply length_insert | done].
Qed.

(** A pointer in the row was there before, or was put there for a
    commit whose hash has a result in the map. *)
Lemma gatherCells_row i commits :
  ∀ j m row k p,
    (gatherCells i j commits m row).1 !! k = Some (Some p) →
    row !! k = Some (Some p)
    ∨ ∃ c, j ≤ k ∧ commits !! (k - j) = Some c ∧ p = (i, Hash c)
           ∧ is_Some (m !! Hash c).
Proof.
  induction commits as [|c commits IH]; intros j m row k p; simpl; [by left|].
  destruct (m !! Hash c) as [r|] eqn:Hr; intros H; apply IH in H.
  - destruct H as [H|(c' & Hjk & Hc' & -> & Hsome)].
    + destruct (decide (j = k)) as [->|Hne].
      * destruct (decide (k < length row)) as [Hlt|Hge].
        -- rewrite list_lookup_insert_eq in H by done. injection H as <-.
           right. exists c. rewrite Nat.sub_diag. by rewrite Hr.
        -- assert (Hx : length row ≤ k) by lia.
           rewrite list_insert_ge in H; [by left | done].
      * rewrite list_lookup_insert_ne in H by done. by left.
    + right. exists c'. split; [lia|].
      replace (k - j) with (S (k - S j)) by lia. split; [done|]. split; [done|].
      destruct (decide (Hash c = Hash c')) as [<-|Hne]; [by rewrite Hr|].
      by rewrite lookup_insert_ne in Hsome.
  - destruct H as [H|(c' & Hjk & Hc' & -> & Hsome)]; [by left|].
    right. exists c'. split; [lia|].
    replace (k - j) with (S (k - S j)) by lia. done.
Qed.

(** The rows and the objects the loop over [dashMap] makes. *)
Lemma gatherRows_spec commits dashMap :
  ∀ i results,
    let res := gatherRows i commits dashMap results in
    length res.1 = length results
    ∧ (∀ k, k < i → res.1 !! k = results !! k)
    ∧ ∀ k m, dashMap !! k = Some m → i + k < length results →
        let cells :=
          gatherCells (i + k) 0 commits m (replicate (length commits) None) in
        res.1 !! (i + k) = Some cells.1 ∧ res.2 !! k = Some cells.2.
Proof.
  induction dashMap as [|m0 dashMap IH]; intros i results; simpl.
  { split; [done|]. split; [done|]. by intros k m Hk. }
  destruct (gatherCells i 0 commits m0 (replicate (length commits) None))
    as [row m0'] eqn:Hcells.
  destruct (IH (S i) (<[i := row]> results)) as (Hlen & Hlow & Hrows).
  destruct (gatherRows (S i) commits dashMap (<[i := row]> results))
    as [results' objects] eqn:Hrec.
  simpl in *. rewrite length_insert in Hlen, Hrows.
  split; [done|]. split.
  - intros k Hk. rewrite Hlow by lia. by rewrite list_lookup_insert_ne by lia.
  - intros [|k] m Hm Hk; simpl in Hm.
    + injection Hm as <-. rewrite Nat.add_0_r in *. rewrite Hcells. simpl.
      split; [|done]. rewrite Hlow by lia. by rewrite list_lookup_insert_eq.
    + replace (i + S k) with (S i + k) by lia. apply Hrows; [done | lia].
Qed.

(** C1 (amended). After a ReadBoard call that returns no error, Results
    has one row per builder and every row has one cell per commit; a
    non-nil cell [i], [j] points to a result whose Builder is the name of
    builder [i] and whose Commit is the hash of commit [j]; its Time is
    the time of the last commit of the list that has that hash, which is
    the time of commit [j] when the commits of the list that have its hash
    have its time. *)
Theorem ReadBoard_assembled fuel lib c dash builder since dash' :
  result (ReadBoard fuel lib c dash builder since) = Ret (dash', None) →
  length (d_Results dash') = length (d_Builders dash')
  ∧ (∀ i row, d_Results dash' !! i = Some row →
       length row = length (d_Commits dash'))
  ∧ ∀ i j p, cellPtr dash' i j = Some p →
      ∃ b c r,
        d_Builders dash' !! i = Some b
        ∧ d_Commits dash' !! j = Some c
        ∧ deref (d_Objects dash') p = Some r
        ∧ r_Builder r = Name b
        ∧ r_Commit r = Hash c
        ∧ stampOf (d_Commits dash') (Hash c) = Some (r_Time r)
        ∧ ((∀ c', c' ∈ d_Commits dash' → Hash c' = Hash c →
              Time_ c' = Time_ c) →
           r_Time r = Time_ c).
Proof.
  unfold ReadBoard. rewrite bind_when. simpl. intros H.
  apply result_bind_inv in H as (commits & _ & H).
  apply result_bind_inv in H as ([builders|err] & _ & H); [|discriminate].
  simpl in H.
  apply result_bind_inv in H as ([dashMap [e|]] & Hunits & H); [discriminate|].
  simpl in H. apply runUnits_keyed in Hunits.
  pose proof (gatherRows_spec commits dashMap 0 (replicate (length builders) []))
    as (Hlen & _ & Hrows).
  destruct (gatherRows 0 commits dashMap (replicate (length builders) []))
    as [results objects].
  injection H as <-. simpl in *. rewrite length_replicate in Hlen, Hrows.
  assert (Hrow : ∀ i row, results !! i = Some row →
            ∃ b m, builders !! i = Some b ∧ dashMap !! i = Some m ∧ keyed b m
              ∧ row = (gatherCells i 0 commits m
                         (replicate (length commits) None)).1
              ∧ objects !! i
                = Some (gatherCells i 0 commits m
                          (replicate (length commits) None)).2).
  { intros i row Hi.
    assert (Hlt : i < length builders).
    { rewrite <- Hlen. by eapply lookup_lt_Some. }
    destruct (lookup_lt_is_Some_2 builders i Hlt) as [b Hb].
    destruct (Forall2_lookup_l _ _ _ _ _ Hunits Hb) as (m & Hm & Hkeyed).
    destruct (Hrows i m Hm Hlt) as [Hr Ho].
    exists b, m. rewrite Hi in Hr. injection Hr as ->. done. }
  split; [done|]. split.
  - intros i row Hi. destruct (Hrow i row Hi) as (b & m & _ & _ & _ & -> & _).
    by rewrite gatherCells_length, length_replicate.
  - intros i j p. unfold cellPtr. simpl.
    destruct (results !! i) as [row|] eqn:Hi; [|done].
    destruct (Hrow i row Hi) as (b & m & Hb & Hm & Hkeyed & -> & Hobj).
    destruct (_ !! j) as [[p'|]|] eqn:Hj; [|done|done]. intros [= ->].
    apply gatherCells_row in Hj as [Hj|(c0 & _ & Hc0 & -> & [r0 Hr0])].
    { apply lookup_replicate in Hj as [? _]. done. }
    rewrite Nat.sub_0_r in Hc0.
    destruct (Hkeyed _ _ Hr0) as [Hcommit Hbuilder].
    exists b, c0, (set_Time r0 (stampedTime commits (Hash c0) (r_Time r0))).
    split; [done|]. split; [done|]. split.
    { unfold deref. simpl. rewrite Hobj, gatherCells_objects, Hr0. done. }
    split; [done|]. split; [done|]. simpl.
    rewrite stampedTime_stampOf.
    destruct (stampOf_is_Some commits j c0 Hc0) as [t Ht]. rewrite Ht. simpl.
    split; [done|]. intros Hall.
    destruct (stampOf_agree commits (Hash c0) (Time_ c0) Hall) as [Hn|Hs];
      congruence.
Qed.

(** ** The CSV lines of main *)

Lemma string_app_assoc (s1 s2 s3 : string) :
  (s1 +:+ s2) +:+ s3 = s1 +:+ (s2 +:+ s3).
Proof.
  induction s1 as [|a s1 IH]; [done|].
  change (String a ((s1 +:+ s2) +:+ s3) = String a (s1 +:+ (s2 +:+ s3))).
  by f_equal.
Qed.

Lemma string_app_nil_r (s : string) : s +:+ "" = s.
Proof.
  induction s as [|a s IH]; [done|].
  change (String a (s +:+ "") = String a s). by f_equal.
Qed.


(** ** main and the error of ReadBoard *)

(** A ReadBoard call that returns an error leaves Results and the
    objects as they were. *)
Lemma ReadBoard_error_unassembled fuel lib c dash builder since dash' e :
  result (ReadBoard fuel lib c dash builder since) = Ret (dash', Some e) →
  d_Results dash' = d_Results dash ∧ d_Objects dash' = d_Objects dash.
Proof.
  unfold ReadBoard. rewrite bind_when. simpl. intros H.
  apply result_bind_inv in H as (commits & _ & H).
  apply result_bind_inv in H as ([builders|err] & _ & H); simpl in H.
  - apply result_bind_inv in H as ([dashMap [e'|]] & _ & H); simpl in H.
    + by injection H as <- <-.
    + destruct (gatherRows _ _ _ _). discriminate.
  - by injection H as <- <-.
Qed.

(** After a ReadBoard call that returned an error from a unit, so that
    builders are listed, main panics on [dash.Results[0]]: the error does
    not reach log.Fatal. *)
Lemma main_panics_after_error fuel lib flags now c dash' e :
  flag_test flags ≠ "" →
  result (NewLUCIClient lib 1) = Ret c →
  result (ReadBoard fuel lib (set_TraceSteps c true)
            {| d_Repo := flag_repo flags; d_GoBranch := flag_branch flags;
               d_Builders := []; d_Commits := [];
               d_Results := []; d_Objects := [] |}
            (flag_builder flags) (now - sixtyDays)%Z)
  = Ret (dash', Some e) →
  d_Builders dash' ≠ [] →
  result (main fuel lib flags now) = Panic (IndexOutOfRange 0 0).
Proof.
  intros Htest Hc Hboard Hbuilders. unfold main.
  rewrite decide_False by done.
  erewrite result_bind by exact Hc.
  erewrite result_bind by exact Hboard. simpl.
  apply ReadBoard_error_unassembled in Hboard as [Hres _]. simpl in Hres.
  destruct (d_Builders dash') as [|b builders]; [done|]. simpl.
  by rewrite Hres.
Qed.

(** C8, on the small LUCI with the builds service down.  The unit of
    builder b1 fails; ReadBoard returns its error and leaves Results nil,
    with one builder listed.  main does not look at the error: it goes on
    to the loop over the builders and panics on [dash.Results[0]]; it does
    not end in log.Fatal with the error. *)
Theorem main_drops_ReadBoard_error :
  let lib := ex_lib_with ex_gitiles ex_builds_down in
  let c := ex_client_with ex_gitiles ex_builds_down in
  let start := (0 - sixtyDays)%Z in
  (∃ dash', result (ReadBoard 3 lib c ex_dash "" start)
            = Ret (dash', Some "unavailable")
            ∧ d_Results dash' = []
            ∧ length (d_Builders dash') = 1)
  ∧ result (NewLUCIClient lib 1) = Ret (set_TraceSteps c false)
  ∧ result (main 3 lib ex_flags 0%Z) = Panic (IndexOutOfRange 0 0)
  ∧ result (main 3 lib ex_flags 0%Z) ≠ Fatal (FatalErr "unavailable").
Proof.
  split; [|split; [|split]].
  - eexists. split; [vm_compute; reflexivity|]. split; reflexivity.
  - reflexivity.
  - vm_compute. reflexivity.
  - vm_compute. discriminate.
Qed.

(** ** Inputs on which the claims, as worded, fail *)

(** C1, as worded, fails on a commit log that lists the hash c1 twice,
    at the times 20 s and 10 s: ReadBoard returns no error, both cells of
    the row point to the one result of the build of c1, and the loop over
    the commits leaves in it the time of the second commit; cell 0, 0 has
    the time 10 s, commit 0 the time 20 s. *)
Lemma ReadBoard_time_counterexample :
  result (ReadBoard 3 (ex_lib_with ex_gitiles_twice ex_builds)
            (ex_client_with ex_gitiles_twice ex_builds) ex_dash "" ex_since)
  = Ret (ex_board_twice, None)
  ∧ ∃ r c, cell ex_board_twice 0 0 = Some r
         ∧ d_Commits ex_board_twice !! 0 = Some c
         ∧ r_Commit r = Hash c
         ∧ r_Time r = 10000000000%Z
         ∧ Time_ c = 20000000000%Z
         ∧ r_Time r ≠ Time_ c.
Proof.
  split; [vm_compute; reflexivity|].
  eexists _, _. split; [vm_compute; reflexivity|].
  split; [vm_compute; reflexivity|].
  split; [reflexivity|]. split; [reflexivity|]. split; [reflexivity|].
  discriminate.
Qed.




(** C6, as worded, fails on [ex_build_nolink]: its first, and only,
    "(combined output)" link has an empty URL, and the log URL is the view
    URL of the output log named "stderr". *)
Lemma resolveLogs_empty_link_counterexample :
  b_Status ex_build_nolink = Status_FAILURE
  ∧ spec_LogURL ex_build_nolink = ""
  ∧ LogURL (resultOf "go" ex_builder ex_build_nolink) = "https://logs/stderr"
  ∧ LogURL (resultOf "go" ex_builder ex_build_nolink)
    ≠ spec_LogURL ex_build_nolink.
Proof.
  split; [reflexivity|]. split; [vm_compute; reflexivity|].
  split; [vm_compute; reflexivity|]. vm_compute. discriminate.
Qed.

(** ** The theorems at work on the small LUCI *)




Lemma ListCommits_branch_witness :
  (∀ req, req ∈ gitilesRequests
                  (trace (ListCommits 3 ex_client "tools" "release" ex_since)) →
     lr_Committish req = "refs/heads/master")
  ∧ head (gitilesRequests
            (trace (ListCommits 3 ex_client "tools" "release" ex_since)))
    = Some (logRequest "tools" "master" "").
Proof.
  assert (Hne : "tools" ≠ "go") by discriminate.
  destruct (proj1 (ListCommits_branch 3 ex_client "tools" "release" ex_since) Hne)
    as (Hall & Hhead & _).
  split; [exact Hall | apply Hhead; discriminate].
Defined.

Lemma NewLUCIClient_nProc_witness :
  result (NewLUCIClient ex_lib 0) = Panic (NProcPanic 0)
  ∧ ∃ c, result (NewLUCIClient ex_lib 4) = Ret c ∧ nProc c = 4%Z.
Proof.
  split.
  - apply (proj1 (NewLUCIClient_nProc ex_lib 0)). reflexivity.
  - apply (proj2 (proj2 (NewLUCIClient_nProc ex_lib 4) ltac:(discriminate))
             ex_gitiles).
    reflexivity.
Defined.






Lemma resolveLogs_failure_witness :
  LogURL (resultOf "go" ex_builder ex_build_nolink) = amended_LogURL ex_build_nolink
  ∧ StepLogURL (resultOf "go" ex_builder ex_build_nolink)
    = spec_StepLogURL ex_build_nolink.
Proof.
  apply (resolveLogs_failure "go" ex_builder ex_build_nolink). reflexivity.
Defined.


Lemma ReadBoard_assembled_witness :
  result (ReadBoard 3 ex_lib ex_client ex_dash "" ex_since) = Ret (ex_board, None)
  ∧ length (d_Results ex_board) = length (d_Builders ex_board)
  ∧ cellPtr ex_board 0 2 = Some (0, "c1")
  ∧ ∃ b c r,
      d_Builders ex_board !! 0 = Some b
      ∧ d_Commits ex_board !! 2 = Some c
      ∧ deref (d_Objects ex_board) (0, "c1") = Some r
      ∧ r_Builder r = Name b
      ∧ r_Commit r = Hash c
      ∧ stampOf (d_Commits ex_board) (Hash c) = Some (r_Time r)
      ∧ ((∀ c', c' ∈ d_Commits ex_board → Hash c' = Hash c → Time_ c' = Time_ c) →
         r_Time r = Time_ c).
Proof.
  assert (H : result (ReadBoard 3 ex_lib ex_client ex_dash "" ex_since)
              = Ret (ex_board, None)) by (vm_compute; reflexivity).
  assert (Hp : cellPtr ex_board 0 2 = Some (0, "c1")) by (vm_compute; reflexivity).
  split; [exact H|].
  destruct (ReadBoard_assembled 3 ex_lib ex_client ex_dash "" ex_since ex_board H)
    as (Hlen & _ & Hcell).
  split; [exact Hlen|]. split; [exact Hp|].
  exact (Hcell 0 2 (0, "c1") Hp).
Defined.

(** * Further properties of luci.go *)

(** ** shortHash and buildURL *)

Lemma substring_0_length n s :
  String.length (substring 0 n s) = n `min` String.length s.
Proof.
  revert n. induction s as [|a s IH]; intros [|n]; simpl; try done.
  by rewrite IH.
Qed.

Lemma substring_0_prefix n s : String.prefix (substring 0 n s) s = true.
Proof.
  revert n. induction s as [|a s IH]; intros [|n]; simpl; try done.
  destruct (ascii_dec a a); [apply IH | done].
Qed.

Lemma prefix_refl s : String.prefix s s = true.
Proof.
  induction s as [|a s IH]; simpl; [done|].
  by destruct (ascii_dec a a).
Qed.

(** X1. The short hash is the input cut to its first 8 bytes: it has
    length min(8, len(s)), it is a prefix of the input, and shortening it
    again changes nothing. *)
Theorem shortHash_prefix s :
  String.length (shortHash s) = 8 `min` String.length s
  ∧ String.prefix (shortHash s) s = true
  ∧ shortHash (shortHash s) = shortHash s.
Proof.
  destruct (Nat.ltb_spec 8 (String.length s)) as [Hlt|Hge].
  - assert (Hs : shortHash s = substring 0 8 s).
    { unfold shortHash. by rewrite (proj2 (Nat.ltb_lt _ _) Hlt). }
    rewrite !Hs. split; [apply substring_0_length|].
    split; [apply substring_0_prefix|].
    unfold shortHash. rewrite substring_0_length.
    replace (8 <? 8 `min` String.length s) with false; [done|].
    symmetry. apply Nat.ltb_ge. lia.
  - assert (Hs : shortHash s = s).
    { unfold shortHash. by rewrite (proj2 (Nat.ltb_ge _ _) Hge). }
    rewrite !Hs. split; [lia|]. split; [apply prefix_refl | done].
Qed.

(** X2. Two builds have the same permalink only if they have the same
    id. *)
Theorem buildURL_inj a b : buildURL a = buildURL b ↔ a = b.
Proof.
  split; [|by intros ->].
  unfold buildURL. intros H. apply (inj _) in H. by apply (inj pretty).
Qed.

Lemma buildURL_inj_witness : 8759448820419452721%Z = 8759448820419452721%Z.
Proof.
  apply (proj1 (buildURL_inj 8759448820419452721 8759448820419452721)).
  reflexivity.
Defined.

(** ** The page loops *)

Lemma result_bind_Ret {A B} (m : run A) (k : A → run B) (a : A) :
  result m = Ret a →
  result (m ≫= k) = result (k a) ∧ trace (m ≫= k) = trace m ++ trace (k a).
Proof. unfold mbind, run_bind, bind. by intros ->. Qed.




Lemma ListBuilders_nextPage_broken lib c all repo goBranch builder tok pages e :
  broken (buildersByToken c) lbp_NextPageToken tok pages e →
  ∀ fuel builders, length pages < fuel →
    let r := ListBuilders_nextPage fuel lib c all repo goBranch builder
               builders tok in
    result r = Ret (Failed e)
    ∧ listBuildersRequests (trace r)
      = map listBuildersRequest
          (tokens lbp_NextPageToken tok pages
           ++ [tokenAfter lbp_NextPageToken tok pages]).
Proof.
  unfold buildersByToken.
  induction 1 as [tok e Hsrv|tok resp pages e Hsrv Hnext Hrest IH];
    intros [|fuel] builders Hfuel; simpl in Hfuel; try lia;
    simpl; rewrite Hsrv; simpl; [done|].
  destruct (decide (lbp_NextPageToken resp ≠ "")); [|done].
  destruct (IH fuel (scanBuilders lib all repo goBranch builder
                       (Builders_ resp) builders)) as [Hres Hreq]; [lia|].
  by rewrite Hres, Hreq.
Qed.

(** X4. When the builder service fails on a page, ListBuilders returns
    that error and no builder, whatever the pages before held; it has
    asked for the pages up to the failing one and for nothing after. *)
Theorem ListBuilders_broken fuel lib c repo goBranch builder pages e :
  broken (buildersByToken c) lbp_NextPageToken "" pages e →
  length pages < fuel →
  let r := ListBuilders fuel lib c repo goBranch builder in
  result r = Ret (Failed e)
  ∧ listBuildersRequests (trace r)
    = map listBuildersRequest
        (tokens lbp_NextPageToken "" pages
         ++ [tokenAfter lbp_NextPageToken "" pages]).
Proof.
  intros Hbroken Hfuel. unfold ListBuilders. rewrite bind_when. simpl.
  destruct (ListBuilders_nextPage_broken lib c
              (bool_decide (repo = "") && bool_decide (goBranch = ""))
              repo goBranch builder _ _ _ Hbroken fuel [] Hfuel) as [Hres Hreq].
  split; [exact Hres|]. rewrite <- Hreq. by destruct (TraceSteps c).
Qed.

Lemma GetBuilds_nextPage_chain c cancelled builder since mask tok pages :
  chain (buildsByToken c cancelled builder since mask) sbp_NextPageToken tok pages →
  ∀ fuel builds, length pages ≤ fuel →
    let r := GetBuilds_nextPage fuel c cancelled builder since mask builds tok in
    result r = Ret (Resp (builds ++ concat (map Builds pages)))
    ∧ searchBuildsRequests (trace r)
      = map (λ t, (cancelled, searchBuildsRequest builder since mask t))
          (tokens sbp_NextPageToken tok pages).
Proof.
  unfold buildsByToken.
  induction 1 as [tok resp Hsrv Hlast|tok resp pages Hsrv Hnext Hrest IH];
    intros [|fuel] builds Hfuel; simpl in Hfuel; try lia;
    simpl; rewrite Hsrv; simpl.
  - rewrite app_nil_r, Hlast. by destruct (decide ("" ≠ "")).
  - destruct (decide (sbp_NextPageToken resp ≠ "")); [|done].
    destruct (IH fuel (builds ++ Builds resp)) as [Hres Hreq]; [lia|].
    rewrite Hres, Hreq. by rewrite app_assoc.
Qed.

(** X5. On a build search that answers the chain of pages, GetBuilds
    asks for each page once, in the order of the page tokens, every time
    for the same builder, start time and field mask, and returns the builds
    of all pages, each once, in the order of the pages. *)
Theorem GetBuilds_chain fuel lib c cancelled builder since mask pages :
  fieldmaskpb_New lib buildFields = Resp mask →
  chain (buildsByToken c cancelled builder since mask) sbp_NextPageToken "" pages →
  length pages ≤ fuel →
  let r := GetBuilds fuel lib c cancelled builder since in
  result r = Ret (Resp (concat (map Builds pages)))
  ∧ searchBuildsRequests (trace r)
    = map (λ t, (cancelled, searchBuildsRequest builder since mask t))
        (tokens sbp_NextPageToken "" pages).
Proof.
  intros Hmask Hchain Hfuel. unfold GetBuilds. rewrite bind_when, Hmask. simpl.
  destruct (GetBuilds_nextPage_chain c cancelled builder since mask _ _
              Hchain fuel [] Hfuel) as [Hres Hreq].
  split; [exact Hres|]. rewrite <- Hreq. by destruct (TraceSteps c).
Qed.

Lemma GetBuilds_nextPage_broken c cancelled builder since mask tok pages e :
  broken (buildsByToken c cancelled builder since mask) sbp_NextPageToken
    tok pages e →
  ∀ fuel builds, length pages < fuel →
    result (GetBuilds_nextPage fuel c cancelled builder since mask builds tok)
    = Ret (Failed e).
Proof.
  unfold buildsByToken.
  induction 1 as [tok e Hsrv|tok resp pages e Hsrv Hnext Hrest IH];
    intros [|fuel] builds Hfuel; simpl in Hfuel; try lia;
    simpl; rewrite Hsrv; simpl; [done|].
  destruct (decide (sbp_NextPageToken resp ≠ "")); [|done].
  apply IH. lia.
Qed.

(** X6. GetBuilds returns an error and no build in two cases: when the
    field mask cannot be made, and then it sends no request; and when the
    build search fails on a page, whatever the pages before held. *)
Theorem GetBuilds_error fuel lib c cancelled builder since :
  (∀ e, fieldmaskpb_New lib buildFields = Failed e →
     result (GetBuilds fuel lib c cancelled builder since) = Ret (Failed e)
     ∧ searchBuildsRequests
         (trace (GetBuilds fuel lib c cancelled builder since)) = [])
  ∧ (∀ mask pages e,
       fieldmaskpb_New lib buildFields = Resp mask →
       broken (buildsByToken c cancelled builder since mask) sbp_NextPageToken
         "" pages e →
       length pages < fuel →
       result (GetBuilds fuel lib c cancelled builder since) = Ret (Failed e)).
Proof.
  split.
  - intros e Hmask. unfold GetBuilds. rewrite bind_when, Hmask. simpl.
    split; [done|]. by destruct (TraceSteps c).
  - intros mask pages e Hmask Hbroken Hfuel.
    unfold GetBuilds. rewrite bind_when, Hmask. simpl.
    by apply (GetBuilds_nextPage_broken _ _ _ _ _ _ _ _ Hbroken).
Qed.





(** ** The sources of a build and the map of a builder *)

Lemma sourceHashes_cons dashRepo s sources commit goCommit :
  sourceHashes dashRepo (s :: sources) commit goCommit
  = if decide (sourceProject s = dashRepo)
    then sourceHashes dashRepo sources (sourceId s) goCommit
    else if decide (sourceProject s = "go")
    then sourceHashes dashRepo sources commit (sourceId s)
    else sourceHashes dashRepo sources commit goCommit.
Proof. reflexivity. Qed.

Lemma sourceHashes_last dashRepo sources :
  ∀ commit goCommit,
    sourceHashes dashRepo sources commit goCommit
    = (default commit
         (sourceId <$> last (filter (λ s, sourceProject s = dashRepo) sources)),
       if decide (dashRepo = "go") then goCommit
       else default goCommit
              (sourceId <$> last (filter (λ s, sourceProject s = "go") sources))).
Proof.
  induction sources as [|s sources IH]; intros commit goCommit.
  { simpl. by destruct (decide (dashRepo = "go")). }
  rewrite sourceHashes_cons, !filter_cons.
  destruct (decide (sourceProject s = dashRepo)) as [Hd|Hd].
  - rewrite IH, last_cons.
    destruct (decide (dashRepo = "go")) as [Hgo|Hgo].
    + by destruct (last (filter _ sources)).
    + rewrite decide_False by congruence.
      by destruct (last (filter (λ s0, sourceProject s0 = dashRepo) sources)).
  - destruct (decide (sourceProject s = "go")) as [Hg|Hg]; rewrite IH; [|done].
    rewrite last_cons.
    destruct (decide (dashRepo = "go")) as [Hgo|Hgo]; [congruence|].
    by destruct (last (filter (λ s0, sourceProject s0 = "go") sources)).
Qed.

(** X9. The commit hash of a build is the id of its last source entry
    whose project is the dashboard's repo, and its go commit the id of the
    last source entry of the project "go"; either is empty when there is no
    such entry, and the go commit is always empty on the dashboard of the
    repo "go" itself. *)
Theorem commitHash_last dashRepo b :
  commitHash dashRepo b = lastIdOf dashRepo (sourcesOf b)
  ∧ goCommitHash dashRepo b
    = if decide (dashRepo = "go") then "" else lastIdOf "go" (sourcesOf b).
Proof.
  unfold commitHash, goCommitHash, lastIdOf. fold (sourcesOf b).
  rewrite sourceHashes_last. simpl. split; [done|].
  by destruct (decide (dashRepo = "go")).
Qed.

Lemma result_bind_Fatal {A B} (m : run A) (k : A → run B) (e : FatalMsg) :
  result m = Fatal e → result (m ≫= k) = Fatal e.
Proof. unfold mbind, run_bind, bind. by intros ->. Qed.

Lemma result_bind_ext {A B} (m : run A) (k k' : A → run B) :
  (∀ a, result (k a) = result (k' a)) → result (m ≫= k) = result (m ≫= k').
Proof.
  intros H. unfold mbind, run_bind, bind.
  destruct (result m); simpl; [apply H | done..].
Qed.

(** X10. Builds without a commit hash have no part in the map:
    reconciliation of a list and of the list without them end alike, with
    the same map or the same fatal error. *)
Theorem reconcile_hashless dashRepo builder builds :
  ∀ buildMap,
    result (reconcile dashRepo builder buildMap
              (List.filter (hasHash dashRepo) builds))
    = result (reconcile dashRepo builder buildMap builds).
Proof.
  induction builds as [|b builds IH]; intros buildMap; simpl; [done|].
  unfold hasHash at 1.
  destruct (decide (commitHash dashRepo b = "")) as [He|Hne].
  - rewrite bool_decide_eq_false_2 by (intros H; by apply H).
    rewrite IH. symmetry. erewrite result_bind; [done|].
    rewrite reconcileBuild_result. by rewrite decide_True.
  - rewrite bool_decide_eq_true_2 by done. simpl.
    apply result_bind_ext. intros m. apply IH.
Qed.

(** X11. After a reconciliation from the empty map that does not stop,
    the keys of the map are exactly the non-empty commit hashes of the
    builds of the list, and each key holds the result of a build of the
    list that resolves to it. *)
Theorem reconcile_domain dashRepo builder builds m :
  result (reconcile dashRepo builder ∅ builds) = Ret m →
  (∀ h, is_Some (m !! h)
        ↔ h ≠ "" ∧ ∃ b, b ∈ builds ∧ commitHash dashRepo b = h)
  ∧ ∀ h r, m !! h = Some r →
      ∃ b, b ∈ builds ∧ commitHash dashRepo b = h
           ∧ r = resultOf dashRepo builder b.
Proof.
  intros Hm.
  assert (Hkept : ∀ h r, m !! h = Some r →
            h ≠ "" ∧ ∃ b, b ∈ builds ∧ commitHash dashRepo b = h
                          ∧ r = resultOf dashRepo builder b).
  { intros h r Hr. destruct (reconcile_inv _ _ _ _ _ Hm h) as [Hs _].
    destruct (Hs r Hr) as ([Habs|(b & Hb & Hh & Hne & ->)] & _);
      [by rewrite lookup_empty in Habs|].
    split; [done|]. by exists b. }
  split.
  - intros h. split.
    + intros [r Hr]. destruct (Hkept h r Hr) as (Hne & b & Hb & Hh & _).
      split; [done|]. by exists b.
    + intros (Hne & b & Hb & Hh).
      destruct (m !! h) as [r|] eqn:Hr; [by eexists|].
      destruct (reconcile_inv _ _ _ _ _ Hm h) as [_ Hn].
      destruct (Hn Hr) as [_ Hnone]. exfalso. apply Hne. by apply (Hnone b).
  - intros h r Hr. by destruct (Hkept h r Hr) as (_ & ?).
Qed.

(** X12. Reconciliation never panics and never runs out of pages; when
    it ends the process, a build of the list with a commit hash fails a
    check, and the message is the one of the first check it fails: the
    result-store host, then the builder name. *)
Theorem reconcile_fatal dashRepo builder builds :
  ∀ buildMap,
    (∀ p, result (reconcile dashRepo builder buildMap builds) ≠ Panic p)
    ∧ result (reconcile dashRepo builder buildMap builds) ≠ OutOfFuel
    ∧ ∀ msg, result (reconcile dashRepo builder buildMap builds) = Fatal msg →
        ∃ b, b ∈ builds ∧ commitHash dashRepo b ≠ ""
             ∧ ((b_Hostname b ≠ resultDBHost
                 ∧ msg = HostMismatch (b_Hostname b) resultDBHost (b_Id b))
                ∨ (b_Hostname b = resultDBHost ∧ b_Builder b ≠ Name builder
                   ∧ msg = BuilderMismatch (b_Builder b) (Name builder) (b_Id b))).
Proof.
  induction builds as [|b builds IH]; intros buildMap; simpl.
  { split; [done|]. split; done. }
  pose proof (reconcileBuild_result dashRepo builder buildMap b) as Hstep.
  assert (Hcases :
    (∃ m1, result (reconcileBuild dashRepo builder buildMap b) = Ret m1)
    ∨ (commitHash dashRepo b ≠ ""
       ∧ ∃ msg, result (reconcileBuild dashRepo builder buildMap b) = Fatal msg
         ∧ ((b_Hostname b ≠ resultDBHost
             ∧ msg = HostMismatch (b_Hostname b) resultDBHost (b_Id b))
            ∨ (b_Hostname b = resultDBHost ∧ b_Builder b ≠ Name builder
               ∧ msg = BuilderMismatch (b_Builder b) (Name builder) (b_Id b))))).
  { rewrite Hstep.
    destruct (decide (commitHash dashRepo b = "")); [left; by eexists|].
    destruct (olderThanStored dashRepo buildMap b); [left; by eexists|].
    destruct (decide (b_Hostname b ≠ resultDBHost)) as [Hh|Hh].
    { right. split; [done|]. eexists. split; [done|]. by left. }
    destruct (decide (b_Builder b ≠ Name builder)) as [Hb|Hb].
    { right. split; [done|]. eexists. split; [done|]. right.
      split; [|done]. by destruct (decide (b_Hostname b = resultDBHost)). }
    left. by eexists. }
  destruct Hcases as [[m1 Hm1]|(Hne & msg & Hmsg & Hwhy)].
  - erewrite result_bind by exact Hm1.
    destruct (IH m1) as (Hp & Hf & Hfatal).
    split; [done|]. split; [done|].
    intros msg Hmsg. destruct (Hfatal msg Hmsg) as (b' & Hb' & Hrest).
    exists b'. split; [by apply elem_of_cons; right | done].
  - rewrite (result_bind_Fatal _ _ _ Hmsg).
    split; [done|]. split; [done|].
    intros msg' [= <-]. exists b. split; [by apply elem_of_cons; left | done].
Qed.

Lemma emptyCommits_app t1 t2 :
  emptyCommits (t1 ++ t2) = emptyCommits t1 ++ emptyCommits t2.
Proof.
  induction t1 as [|[[]| | | | | |] t1 IH]; simpl; by rewrite ?IH.
Qed.

Lemma scanSources_trace dashRepo id sources :
  ∀ commit goCommit,
    emptyCommits (trace (scanSources dashRepo id sources commit goCommit)) = []
    ∧ repoMismatches (trace (scanSources dashRepo id sources commit goCommit))
      = filter (λ p, p ≠ dashRepo ∧ p ≠ "go") (map sourceProject sources).
Proof.
  induction sources as [|s sources IH]; intros commit goCommit; [done|].
  change (scanSources dashRepo id (s :: sources) commit goCommit)
    with (if decide (sourceProject s = dashRepo)
          then scanSources dashRepo id sources (sourceId s) goCommit
          else if decide (sourceProject s = "go")
          then scanSources dashRepo id sources commit (sourceId s)
          else _ ← emit (EvLog (RepoMismatch (sourceProject s) dashRepo id));
               scanSources dashRepo id sources commit goCommit).
  rewrite map_cons, filter_cons.
  destruct (decide (sourceProject s = dashRepo)) as [Hd|Hd].
  { rewrite decide_False by (by intros [? ?]). apply IH. }
  destruct (decide (sourceProject s = "go")) as [Hg|Hg].
  { rewrite decide_False by (by intros [? ?]). apply IH. }
  rewrite decide_True by done.
  destruct (IH commit goCommit) as [He Hr].
  destruct (result_bind_Ret (emit (EvLog (RepoMismatch (sourceProject s) dashRepo id)))
              (λ _, scanSources dashRepo id sources commit goCommit) tt eq_refl)
    as [_ Ht].
  rewrite Ht. simpl. by rewrite He, Hr.
Qed.

Lemma reconcileBuild_emptyCommits dashRepo builder buildMap b :
  emptyCommits (trace (reconcileBuild dashRepo builder buildMap b))
  = if bool_decide (commitHash dashRepo b = "")
       && bool_decide (b_Status b = Status_SUCCESS)
    then [b_Id b] else [].
Proof.
  unfold reconcileBuild.
  destruct (result_bind_Ret _
    (λ '(commit, goCommit),
       if decide (commit = "") then
         _ ← when (bool_decide (b_Status b = Status_SUCCESS))
               (emit (EvLog (EmptyCommit (b_Id b))));
         ret buildMap
       else
         if match buildMap !! commit with
            | Some r0 => Before (AsTime (b_EndTime b)) (BuildTime r0)
            | None => false
            end
         then ret buildMap
         else if decide (b_Hostname b ≠ resultDBHost)
         then log_Fatal (HostMismatch (b_Hostname b) resultDBHost (b_Id b))
         else if decide (b_Builder b ≠ Name builder)
         then log_Fatal (BuilderMismatch (b_Builder b) (Name builder) (b_Id b))
         else ret (<[commit := resolveLogs b
                     (newBuildResult builder b commit goCommit
                        (AsTime (b_EndTime b)))]> buildMap))
    _ (scanSources_result dashRepo (b_Id b)
         (GetListValues (b_Properties b !! "sources")) "" "")) as [_ Ht].
  rewrite Ht, emptyCommits_app.
  rewrite (proj1 (scanSources_trace _ _ _ _ _)). simpl.
  unfold commitHash.
  destruct (sourceHashes dashRepo _ "" "") as [commit goCommit]. simpl.
  destruct (decide (commit = "")) as [->|Hne].
  - rewrite (bool_decide_eq_true_2 ("" = "")) by done. simpl.
    by destruct (bool_decide (b_Status b = Status_SUCCESS)).
  - rewrite (bool_decide_eq_false_2 (commit = "")) by done. simpl.
    destruct (match buildMap !! commit with
              | Some r0 => Before (AsTime (b_EndTime b)) (BuildTime r0)
              | None => false
              end); [done|].
    repeat case_decide; done.
Qed.

(** X13. A reconciliation that does not stop logs an empty commit for
    the SUCCESS builds that have no commit hash, in their order in the
    list, and for no other build. *)
Theorem reconcile_emptyCommits dashRepo builder builds :
  ∀ buildMap m,
    result (reconcile dashRepo builder buildMap builds) = Ret m →
    emptyCommits (trace (reconcile dashRepo builder buildMap builds))
    = map b_Id
        (List.filter
           (λ b, bool_decide (commitHash dashRepo b = "")
                 && bool_decide (b_Status b = Status_SUCCESS))
           builds).
Proof.
  induction builds as [|b builds IH]; intros buildMap m; simpl; [done|].
  intros Hrun. pose proof Hrun as Hrun'.
  apply result_bind_inv in Hrun' as (m1 & Hm1 & Hrest).
  destruct (result_bind_Ret _ (λ buildMap', reconcile dashRepo builder buildMap' builds)
              _ Hm1) as [_ Ht].
  rewrite Ht, emptyCommits_app, reconcileBuild_emptyCommits, (IH _ _ Hrest).
  by destruct (bool_decide (commitHash dashRepo b = "")
               && bool_decide (b_Status b = Status_SUCCESS)).
Qed.

Lemma repoMismatches_app t1 t2 :
  repoMismatches (t1 ++ t2) = repoMismatches t1 ++ repoMismatches t2.
Proof.
  induction t1 as [|[[]| | | | | |] t1 IH]; simpl; by rewrite ?IH.
Qed.

(** X14. Whatever becomes of a build, the loop logs a repo mismatch for
    each of its source entries whose project is neither the dashboard's
    repo nor "go", in the order of the entries, and for no other entry. *)
Theorem reconcileBuild_repoMismatches dashRepo builder buildMap b :
  repoMismatches (trace (reconcileBuild dashRepo builder buildMap b))
  = filter (λ p, p ≠ dashRepo ∧ p ≠ "go") (map sourceProject (sourcesOf b)).
Proof.
  unfold reconcileBuild, sourcesOf.
  destruct (result_bind_Ret _
    (λ '(commit, goCommit),
       if decide (commit = "") then
         _ ← when (bool_decide (b_Status b = Status_SUCCESS))
               (emit (EvLog (EmptyCommit (b_Id b))));
         ret buildMap
       else
         if match buildMap !! commit with
            | Some r0 => Before (AsTime (b_EndTime b)) (BuildTime r0)
            | None => false
            end
         then ret buildMap
         else if decide (b_Hostname b ≠ resultDBHost)
         then log_Fatal (HostMismatch (b_Hostname b) resultDBHost (b_Id b))
         else if decide (b_Builder b ≠ Name builder)
         then log_Fatal (BuilderMismatch (b_Builder b) (Name builder) (b_Id b))
         else ret (<[commit := resolveLogs b
                     (newBuildResult builder b commit goCommit
                        (AsTime (b_EndTime b)))]> buildMap))
    _ (scanSources_result dashRepo (b_Id b)
         (GetListValues (b_Properties b !! "sources")) "" "")) as [_ Ht].
  rewrite Ht, repoMismatches_app.
  rewrite (proj2 (scanSources_trace _ _ _ _ _)).
  destruct (sourceHashes dashRepo _ "" "") as [commit goCommit]. simpl.
  rewrite <- (app_nil_r (filter _ _)) at 2. f_equal.
  destruct (decide (commit = "")) as [->|Hne].
  - by destruct (bool_decide (b_Status b = Status_SUCCESS)).
  - destruct (match buildMap !! commit with
              | Some r0 => Before (AsTime (b_EndTime b)) (BuildTime r0)
              | None => false
              end); [done|].
    repeat case_decide; done.
Qed.

(** ** ReadBoard, further *)



Lemma searchBuildsRequests_app t1 t2 :
  searchBuildsRequests (t1 ++ t2)
  = searchBuildsRequests t1 ++ searchBuildsRequests t2.
Proof.
  induction t1 as [|[] t1 IH]; simpl; by rewrite ?IH.
Qed.

Lemma ListCommits_nextPage_no_search fuel c repo branch since :
  ∀ commits tok,
    searchBuildsRequests
      (trace (ListCommits_nextPage fuel c repo branch since commits tok)) = [].
Proof.
  induction fuel as [|fuel IH]; intros commits tok; simpl; [done|].
  destruct (c_GitilesClient c _) as [resp|e]; simpl; [|done].
  destruct (scanLog since (Log resp) commits) as [commits' [|]]; simpl; [done|].
  destruct (decide (lp_NextPageToken resp ≠ "")); [apply IH | done].
Qed.

Lemma ListCommits_no_search fuel c repo goBranch since :
  searchBuildsRequests (trace (ListCommits fuel c repo goBranch since)) = [].
Proof.
  unfold ListCommits. rewrite bind_when. simpl.
  rewrite searchBuildsRequests_app, ListCommits_nextPage_no_search.
  by destruct (TraceSteps c).
Qed.

Lemma ListBuilders_nextPage_no_search fuel lib c all repo goBranch builder :
  ∀ builders tok,
    searchBuildsRequests
      (trace (ListBuilders_nextPage fuel lib c all repo goBranch builder
                builders tok)) = [].
Proof.
  induction fuel as [|fuel IH]; intros builders tok; simpl; [done|].
  destruct (c_BuildersClient c _) as [resp|e]; simpl; [|done].
  destruct (decide (lbp_NextPageToken resp ≠ "")); [apply IH | done].
Qed.

Lemma ListBuilders_no_search fuel lib c repo goBranch builder :
  searchBuildsRequests (trace (ListBuilders fuel lib c repo goBranch builder)) = [].
Proof.
  unfold ListBuilders. rewrite bind_when. simpl.
  rewrite searchBuildsRequests_app, ListBuilders_nextPage_no_search.
  by destruct (TraceSteps c).
Qed.

(** X16. When the commits are listed and the listing of the builders
    fails, ReadBoard returns the error of the listing; the dashboard has
    the commits and no builder, Results is as it was, and no build search
    has been sent. *)
Theorem ReadBoard_builders_error fuel lib c dash builder since commits e :
  result (ListCommits fuel c (d_Repo dash) (d_GoBranch dash) since) = Ret commits →
  result (ListBuilders fuel lib c (d_Repo dash) (d_GoBranch dash) builder)
  = Ret (Failed e) →
  result (ReadBoard fuel lib c dash builder since)
  = Ret (set_Builders (set_Commits dash commits) [], Some e)
  ∧ searchBuildsRequests (trace (ReadBoard fuel lib c dash builder since)) = [].
Proof.
  intros Hc Hb. unfold ReadBoard. rewrite bind_when. simpl.
  destruct (result_bind_Ret _
    (λ commits,
       r ← ListBuilders fuel lib c (d_Repo dash) (d_GoBranch dash) builder;
       match r with
       | Failed err => ret (set_Builders (set_Commits dash commits) [], Some err)
       | Resp builders =>
           '(dashMap, err) ←
             runUnits fuel lib c (d_Repo dash) since builders None;
           match err with
           | Some e => ret (set_Builders (set_Commits dash commits) builders, Some e)
           | None =>
               let '(results, objects) :=
                 gatherRows 0 commits dashMap (replicate (length builders) []) in
               ret (set_Results (set_Builders (set_Commits dash commits) builders)
                      results objects, None)
           end
       end) _ Hc) as [Hres Htr].
  destruct (result_bind_Ret _
    (λ r : rpc (list Builder),
       match r with
       | Failed err => ret (set_Builders (set_Commits dash commits) [], Some err)
       | Resp builders =>
           '(dashMap, err) ←
             runUnits fuel lib c (d_Repo dash) since builders None;
           match err with
           | Some e => ret (set_Builders (set_Commits dash commits) builders, Some e)
           | None =>
               let '(results, objects) :=
                 gatherRows 0 commits dashMap (replicate (length builders) []) in
               ret (set_Results (set_Builders (set_Commits dash commits) builders)
                      results objects, None)
           end
       end) _ Hb) as [Hres' Htr'].
  split.
  - etransitivity; [exact Hres|]. etransitivity; [exact Hres'|]. done.
  - rewrite searchBuildsRequests_app.
    replace (searchBuildsRequests (if TraceSteps c then _ else _)) with
      (@nil (bool * SearchBuildsRequest)) by (by destruct (TraceSteps c)).
    simpl. etransitivity; [apply (f_equal searchBuildsRequests Htr)|].
    rewrite searchBuildsRequests_app, ListCommits_no_search. simpl.
    etransitivity; [apply (f_equal searchBuildsRequests Htr')|].
    rewrite searchBuildsRequests_app, ListBuilders_no_search. done.
Qed.

Lemma runUnits_cancelled fuel lib c dashRepo since builders :
  ∀ e0 dashMap err,
    result (runUnits fuel lib c dashRepo since builders (Some e0))
    = Ret (dashMap, err) →
    err = Some e0 ∧ length dashMap = length builders.
Proof.
  induction builders as [|b builders IH]; intros e0 dashMap err; simpl.
  - by intros [= <- <-].
  - intros H. apply result_bind_inv in H as ([e m] & _ & H).
    apply result_bind_inv in H as ([ms err'] & Hrest & H).
    simpl in H. injection H as <- <-.
    destruct (IH _ _ _ Hrest) as [-> Hlen]. split; [done|]. simpl. by rewrite Hlen.
Qed.

(** X17. The units of ReadBoard, run one at a time in the order of the
    builders, leave one map per builder.  When the group holds no error,
    every unit has run under a live context and returned none, and its map
    is in the builder's slot; otherwise the error is the one of the first
    unit that fails, every unit before it having returned none. *)
Theorem runUnits_first_error fuel lib c dashRepo since builders :
  ∀ dashMap err,
    result (runUnits fuel lib c dashRepo since builders None)
    = Ret (dashMap, err) →
    length dashMap = length builders
    ∧ match err with
      | None =>
          ∀ i b, builders !! i = Some b →
            ∃ m, result (builderUnit fuel lib c dashRepo false b since)
                 = Ret (None, m)
                 ∧ dashMap !! i = Some m
      | Some e =>
          ∃ i b m,
            builders !! i = Some b
            ∧ result (builderUnit fuel lib c dashRepo false b since)
              = Ret (Some e, m)
            ∧ ∀ j b', j < i → builders !! j = Some b' →
                ∃ m', result (builderUnit fuel lib c dashRepo false b' since)
                      = Ret (None, m')
      end.
Proof.
  induction builders as [|b builders IH]; intros dashMap err; simpl.
  { intros [= <- <-]. split; [done|]. by intros i b Hb. }
  intros H. apply result_bind_inv in H as ([e m] & Hunit & H).
  apply result_bind_inv in H as ([ms err'] & Hrest & H).
  simpl in H. injection H as <- <-.
  change (bool_decide (is_Some None)) with false in Hunit.
  destruct e as [e|].
  - apply runUnits_cancelled in Hrest as [-> Hlen].
    split; [simpl; by rewrite Hlen|].
    exists 0, b, m. split; [done|]. split; [done|]. intros j b' Hj. lia.
  - destruct (IH _ _ Hrest) as [Hlen Herr].
    split; [simpl; by rewrite Hlen|].
    destruct err' as [e|].
    + destruct Herr as (i & b' & m' & Hb' & Hfail & Hbefore).
      exists (S i), b', m'. split; [done|]. split; [done|].
      intros [|j] b'' Hj Hb''; simpl in Hb''.
      * injection Hb'' as <-. by exists m.
      * apply (Hbefore j); [lia | done].
    + intros [|i] b' Hb'; simpl in Hb'.
      * injection Hb' as <-. by exists m.
      * by apply Herr.
Qed.

(** ** The extraction loop of main *)

Lemma stdout_app t1 t2 : stdout (t1 ++ t2) = stdout t1 +:+ stdout t2.
Proof.
  induction t1 as [|[] t1 IH]; simpl; rewrite ?IH; try done.
  by rewrite string_app_assoc.
Qed.

Lemma queryRequests_app t1 t2 :
  queryRequests (t1 ++ t2) = queryRequests t1 ++ queryRequests t2.
Proof.
  induction t1 as [|[] t1 IH]; simpl; by rewrite ?IH.
Qed.

Lemma joined_app l1 l2 : joined (l1 ++ l2) = joined l1 +:+ joined l2.
Proof.
  induction l1 as [|s l1 IH]; simpl; [done|].
  unfold joined in *. simpl. by rewrite IH, string_app_assoc.
Qed.

(** One test result: its line, or nothing; no request. *)
Lemma printTestResult_run lib dash b r rr :
  result (printTestResult lib dash b r rr) = Ret tt
  ∧ queryRequests (trace (printTestResult lib dash b r rr)) = []
  ∧ stdout (trace (printTestResult lib dash b r rr))
    = if notSkipped rr then lineOf lib dash b r rr else "".
Proof.
  unfold printTestResult, notSkipped.
  destruct (decide (tr_Status rr = TestStatus_SKIP)) as [Hs|Hs].
  { rewrite bool_decide_eq_false_2 by (intros H; by apply H). done. }
  rewrite bool_decide_eq_true_2 by done.
  unfold printBuilder, lineOf, csvLine, csvFields.
  destruct (Nat.ltb_spec 1 (length (d_Builders dash))) as [Hm|Hm];
    [rewrite (bool_decide_eq_true_2 (1 < _)) by done
    |rewrite (bool_decide_eq_false_2 (1 < _)) by lia];
    (destruct (decide (tr_Status rr = TestStatus_PASS)) as [Hp|Hp];
      [rewrite (bool_decide_eq_true_2 (tr_Status rr = _)) by done
      |rewrite (bool_decide_eq_false_2 (tr_Status rr = _)) by done]);
    (split; [reflexivity|]; split; [reflexivity|]);
    simpl; by rewrite !string_app_assoc, ?string_app_nil_r.
Qed.

Lemma printTestResults_run lib dash b r rrs :
  result (printTestResults lib dash b r rrs) = Ret tt
  ∧ queryRequests (trace (printTestResults lib dash b r rrs)) = []
  ∧ stdout (trace (printTestResults lib dash b r rrs))
    = linesOf lib dash b r rrs.
Proof.
  unfold linesOf. induction rrs as [|rr rrs (IHr & IHq & IHs)]; simpl; [done|].
  destruct (printTestResult_run lib dash b r rr) as (Hr & Hq & Hs).
  destruct (result_bind_Ret _ (λ _, printTestResults lib dash b r rrs) _ Hr)
    as [Hres Htr].
  rewrite Hres, Htr, queryRequests_app, stdout_app, Hq, Hs, IHq, IHs.
  split; [done|]. split; [done|].
  destruct (notSkipped rr); [done|]. done.
Qed.

(** X18. The loop over the test results of a cell prints the lines of
    the results that are not skipped, one after the other in the order of
    the results, and nothing else; it sends no request and does not
    stop. *)
Theorem printTestResults_lines lib dash b r rrs :
  result (printTestResults lib dash b r rrs) = Ret tt
  ∧ queryRequests (trace (printTestResults lib dash b r rrs)) = []
  ∧ stdout (trace (printTestResults lib dash b r rrs))
    = joined (map (lineOf lib dash b r) (List.filter notSkipped rrs)).
Proof. apply printTestResults_run. Qed.

Lemma queryCell_run lib c flags dash b r resp :
  c_ResultDBClient c (queryOf lib flags r) = Resp resp →
  result (queryCell lib c flags dash b r) = Ret tt
  ∧ queryRequests (trace (queryCell lib c flags dash b r)) = [queryOf lib flags r]
  ∧ stdout (trace (queryCell lib c flags dash b r))
    = linesOf lib dash b r (TestResults resp).
Proof.
  intros Hresp. unfold queryCell. rewrite bind_when. fold (queryOf lib flags r).
  cbn [result trace]. rewrite bind_call, Hresp. cbn [result trace].
  destruct (printTestResults_run lib dash b r (TestResults resp))
    as (Hr & Hq & Hs).
  rewrite queryRequests_app, stdout_app. simpl. rewrite Hr, Hq, Hs.
  split; [done|]. by destruct (TraceSteps c).
Qed.

Lemma queryRow_run lib c flags dash b row :
  (∀ req, ∃ resp, c_ResultDBClient c req = Resp resp) →
  result (queryRow lib c flags dash b row) = Ret tt
  ∧ queryRequests (trace (queryRow lib c flags dash b row))
    = map (queryOf lib flags) (rowResults dash row)
  ∧ stdout (trace (queryRow lib c flags dash b row))
    = joined (map (λ r, cellOutput lib c flags dash (b, r))
                (rowResults dash row)).
Proof.
  intros Hsrv. unfold rowResults.
  induction row as [|[p|] row (IHr & IHq & IHs)]; simpl; [done| |done].
  destruct (deref (d_Objects dash) p) as [r|] eqn:Hp; simpl; [|done].
  destruct (Hsrv (queryOf lib flags r)) as [resp Hresp].
  destruct (queryCell_run lib c flags dash b r resp Hresp) as (Hr & Hq & Hs).
  destruct (result_bind_Ret _ (λ _, queryRow lib c flags dash b row) _ Hr)
    as [Hres Htr].
  rewrite Hres, Htr, queryRequests_app, stdout_app, Hq, Hs, IHq, IHs.
  split; [done|]. split; [done|].
  unfold cellOutput at 2. simpl. by rewrite Hresp.
Qed.

Lemma queryRows_run lib c flags dash builders :
  (∀ req, ∃ resp, c_ResultDBClient c req = Resp resp) →
  ∀ i, i + length builders ≤ length (d_Results dash) →
    result (queryRows lib c flags dash i builders) = Ret tt
    ∧ queryRequests (trace (queryRows lib c flags dash i builders))
      = map (λ br, queryOf lib flags br.2) (rowsFrom dash i builders)
    ∧ stdout (trace (queryRows lib c flags dash i builders))
      = joined (map (cellOutput lib c flags dash) (rowsFrom dash i builders)).
Proof.
  intros Hsrv. unfold rowsFrom.
  induction builders as [|b builders IH]; intros i Hi; simpl in *; [done|].
  destruct (lookup_lt_is_Some_2 (d_Results dash) i ltac:(lia)) as [row Hrow].
  rewrite Hrow, (drop_S _ _ _ Hrow). simpl.
  destruct (queryRow_run lib c flags dash b row Hsrv) as (Hr & Hq & Hs).
  destruct (IH (S i) ltac:(lia)) as (IHr & IHq & IHs).
  destruct (result_bind_Ret _ (λ _, queryRows lib c flags dash (S i) builders)
              _ Hr) as [Hres Htr].
  rewrite Hres, Htr, queryRequests_app, stdout_app, Hq, Hs, IHq, IHs.
  rewrite !map_app, joined_app, <- !list_fmap_compose.
  done.
Qed.

(** X19. When the result store answers every query and Results has a
    row for each builder, the loop over the builders does not stop; it
    sends one query for each non-nil cell, row by row and column by column,
    for the invocation of the cell's result and the quoted test name, and
    prints the lines of the cells in that same order. *)
Theorem queryRows_output lib c flags dash :
  (∀ req, ∃ resp, c_ResultDBClient c req = Resp resp) →
  length (d_Builders dash) ≤ length (d_Results dash) →
  let r := queryRows lib c flags dash 0 (d_Builders dash) in
  result r = Ret tt
  ∧ queryRequests (trace r)
    = map (λ br, queryOf lib flags br.2) (rowsFrom dash 0 (d_Builders dash))
  ∧ stdout (trace r)
    = joined (map (cellOutput lib c flags dash)
                (rowsFrom dash 0 (d_Builders dash))).
Proof.
  intros Hsrv Hlen. by apply queryRows_run.
Qed.

Lemma ReadBoard_rows_length fuel lib c dash builder since dash' :
  result (ReadBoard fuel lib c dash builder since) = Ret (dash', None) →
  length (d_Results dash') = length (d_Builders dash').
Proof.
  unfold ReadBoard. rewrite bind_when. simpl. intros H.
  apply result_bind_inv in H as (commits & _ & H).
  apply result_bind_inv in H as ([builders|err] & _ & H); [|discriminate].
  simpl in H.
  apply result_bind_inv in H as ([dashMap [e|]] & _ & H); [discriminate|].
  simpl in H.
  pose proof (gatherRows_spec commits dashMap 0 (replicate (length builders) []))
    as (Hlen & _).
  destruct (gatherRows 0 commits dashMap (replicate (length builders) []))
    as [results objects].
  injection H as <-. simpl in *. by rewrite length_replicate in Hlen.
Qed.

(** X20. When the test name is set, the client is made, ReadBoard
    returns no error and the result store answers every query, main ends
    normally: it does not panic on Results and does not reach
    log.Fatal. *)
Theorem main_returns fuel lib flags now c dash' :
  flag_test flags ≠ "" →
  result (NewLUCIClient lib 1) = Ret c →
  result (ReadBoard fuel lib (set_TraceSteps c true)
            {| d_Repo := flag_repo flags; d_GoBranch := flag_branch flags;
               d_Builders := []; d_Commits := [];
               d_Results := []; d_Objects := [] |}
            (flag_builder flags) (now - sixtyDays)%Z)
  = Ret (dash', None) →
  (∀ req, ∃ resp, c_ResultDBClient c req = Resp resp) →
  result (main fuel lib flags now) = Ret tt.
Proof.
  intros Htest Hc Hboard Hsrv. unfold main.
  rewrite decide_False by done.
  erewrite result_bind by exact Hc.
  erewrite result_bind by exact Hboard. simpl.
  apply (queryRows_run lib (set_TraceSteps c true) flags dash' (d_Builders dash')).
  - exact Hsrv.
  - simpl. by rewrite (ReadBoard_rows_length _ _ _ _ _ _ _ Hboard).
Qed.

Lemma bind_Fatal {A B} (m : run A) (k : A → run B) (e : FatalMsg) :
  result m = Fatal e → (m ≫= k) = Run (trace m) (Fatal e).
Proof. unfold mbind, run_bind, bind. by intros ->. Qed.

Lemma queryCell_failed lib c flags dash b r e :
  c_ResultDBClient c (queryOf lib flags r) = Failed e →
  result (queryCell lib c flags dash b r) = Fatal (FatalErr e)
  ∧ queryRequests (trace (queryCell lib c flags dash b r)) = [queryOf lib flags r]
  ∧ stdout (trace (queryCell lib c flags dash b r)) = "".
Proof.
  intros Hresp. unfold queryCell. rewrite bind_when. fold (queryOf lib flags r).
  cbn [result trace]. rewrite bind_call, Hresp. cbn [result trace].
  rewrite queryRequests_app, stdout_app. simpl.
  split; [done|]. by destruct (TraceSteps c).
Qed.

(** X21. When the result store fails on the query of a cell, the cells
    before it in the row having been answered, the loop over the row ends
    the process with that error: it has printed the lines of the cells
    before, and it sends no query for the cells after. *)
Theorem queryRow_fatal lib c flags dash b pre p r post e :
  (∀ r', r' ∈ rowResults dash pre →
     ∃ resp, c_ResultDBClient c (queryOf lib flags r') = Resp resp) →
  deref (d_Objects dash) p = Some r →
  c_ResultDBClient c (queryOf lib flags r) = Failed e →
  let run := queryRow lib c flags dash b (pre ++ Some p :: post) in
  result run = Fatal (FatalErr e)
  ∧ queryRequests (trace run)
    = map (queryOf lib flags) (rowResults dash pre) ++ [queryOf lib flags r]
  ∧ stdout (trace run)
    = joined (map (λ r', cellOutput lib c flags dash (b, r'))
                (rowResults dash pre)).
Proof.
  intros Hpre Hp He. unfold rowResults in *.
  induction pre as [|[q|] pre IH]; simpl in *.
  - rewrite Hp. destruct (queryCell_failed lib c flags dash b r e He)
      as (Hr & Hq & Hs).
    rewrite (bind_Fatal _ _ _ Hr). simpl. by rewrite Hq, Hs.
  - destruct (deref (d_Objects dash) q) as [r'|] eqn:Hq'; simpl in *.
    + destruct (Hpre r' ltac:(by apply elem_of_cons; left)) as [resp Hresp].
      destruct (queryCell_run lib c flags dash b r' resp Hresp) as (Hr & Hq & Hs).
      destruct (result_bind_Ret _
                  (λ _, queryRow lib c flags dash b (pre ++ Some p :: post))
                  _ Hr) as [Hres Htr].
      destruct IH as (IHr & IHq & IHs).
      { intros r'' Hr''. apply Hpre. by apply elem_of_cons; right. }
      rewrite Hres, Htr, queryRequests_app, stdout_app, Hq, Hs, IHr, IHq, IHs.
      split; [done|]. split; [done|].
      unfold cellOutput at 2. simpl. by rewrite Hresp.
    + by apply IH.
  - by apply IH.
Qed.

(** ** The further properties at work on the small LUCI *)


Lemma ListBuilders_broken_witness :
  result (ListBuilders 2 ex_lib
            (ex_client_of ex_gitiles ex_builds ex_builders_broken ex_resultdb)
            "go" "master" "")
  = Ret (Failed "deadline exceeded")
  ∧ listBuildersRequests
      (trace (ListBuilders 2 ex_lib
                (ex_client_of ex_gitiles ex_builds ex_builders_broken ex_resultdb)
                "go" "master" ""))
    = [listBuildersRequest ""; listBuildersRequest "b2"].
Proof.
  apply (ListBuilders_broken 2 ex_lib
           (ex_client_of ex_gitiles ex_builds ex_builders_broken ex_resultdb)
           "go" "master" "" [ex_builders_page1] "deadline exceeded").
  - apply broken_later; [reflexivity | discriminate |].
    apply broken_here. reflexivity.
  - apply le_n.
Defined.

Lemma GetBuilds_chain_witness :
  result (GetBuilds 1 ex_lib ex_client false "b1" ex_since)
  = Ret (Resp [ex_build1; ex_build2])
  ∧ searchBuildsRequests (trace (GetBuilds 1 ex_lib ex_client false "b1" ex_since))
    = [(false, searchBuildsRequest "b1" ex_since buildFields "")].
Proof.
  exact (GetBuilds_chain 1 ex_lib ex_client false "b1" ex_since buildFields
           [ex_builds_page] eq_refl
           (chain_last _ _ "" ex_builds_page eq_refl eq_refl) (le_n 1)).
Defined.

Lemma GetBuilds_error_witness :
  (result (GetBuilds 1 ex_lib_nomask ex_client false "b1" ex_since)
   = Ret (Failed "invalid path")
   ∧ searchBuildsRequests
       (trace (GetBuilds 1 ex_lib_nomask ex_client false "b1" ex_since)) = [])
  ∧ result (GetBuilds 1 ex_lib (ex_client_with ex_gitiles ex_builds_down)
              false "b1" ex_since)
    = Ret (Failed "unavailable").
Proof.
  split.
  - apply (proj1 (GetBuilds_error 1 ex_lib_nomask ex_client false "b1" ex_since)).
    reflexivity.
  - apply (proj2 (GetBuilds_error 1 ex_lib
                    (ex_client_with ex_gitiles ex_builds_down)
                    false "b1" ex_since) buildFields [] "unavailable").
    + reflexivity.
    + apply broken_here. reflexivity.
    + apply le_n.
Defined.



Lemma ex_reconciled :
  result (reconcile "go" ex_builder ∅ [ex_build1; ex_build2])
  = Ret (ex_map ex_build2).
Proof. vm_compute. reflexivity. Defined.

Lemma reconcile_domain_witness :
  is_Some (ex_map ex_build2 !! "c1")
  ↔ "c1" ≠ "" ∧ ∃ b, b ∈ [ex_build1; ex_build2] ∧ commitHash "go" b = "c1".
Proof.
  exact (proj1 (reconcile_domain "go" ex_builder [ex_build1; ex_build2]
                  (ex_map ex_build2) ex_reconciled) "c1").
Defined.

Lemma reconcile_fatal_witness :
  ∃ b, b ∈ [ex_build4; ex_build2] ∧ commitHash "go" b ≠ ""
       ∧ ((b_Hostname b ≠ resultDBHost
           ∧ HostMismatch "results.example.org" resultDBHost 4
             = HostMismatch (b_Hostname b) resultDBHost (b_Id b))
          ∨ (b_Hostname b = resultDBHost ∧ b_Builder b ≠ Name ex_builder
             ∧ HostMismatch "results.example.org" resultDBHost 4
               = BuilderMismatch (b_Builder b) (Name ex_builder) (b_Id b))).
Proof.
  apply (proj2 (proj2 (reconcile_fatal "go" ex_builder [ex_build4; ex_build2]
                         ∅))).
  vm_compute. reflexivity.
Defined.

Lemma reconcile_emptyCommits_witness :
  emptyCommits
    (trace (reconcile "go" ex_builder ∅ [ex_build_nohash; ex_build1; ex_build2]))
  = map b_Id
      (List.filter
         (λ b, bool_decide (commitHash "go" b = "")
               && bool_decide (b_Status b = Status_SUCCESS))
         [ex_build_nohash; ex_build1; ex_build2]).
Proof.
  apply (reconcile_emptyCommits "go" ex_builder
           [ex_build_nohash; ex_build1; ex_build2] ∅ (ex_map ex_build2)).
  vm_compute. reflexivity.
Defined.



Lemma ReadBoard_builders_error_witness :
  result (ReadBoard 3 ex_lib
            (ex_client_of ex_gitiles ex_builds ex_builders_broken ex_resultdb)
            ex_dash "" ex_since)
  = Ret (set_Builders (set_Commits ex_dash ex_commits) [], Some "deadline exceeded")
  ∧ searchBuildsRequests
      (trace (ReadBoard 3 ex_lib
                (ex_client_of ex_gitiles ex_builds ex_builders_broken ex_resultdb)
                ex_dash "" ex_since)) = [].
Proof.
  apply (ReadBoard_builders_error 3 ex_lib
           (ex_client_of ex_gitiles ex_builds ex_builders_broken ex_resultdb)
           ex_dash "" ex_since ex_commits "deadline exceeded").
  - vm_compute. reflexivity.
  - vm_compute. reflexivity.
Defined.

Lemma runUnits_first_error_witness :
  length [(∅ : gmap string BuildResult)] = length [ex_builder]
  ∧ ∃ i b m,
      [ex_builder] !! i = Some b
      ∧ result (builderUnit 3 ex_lib (ex_client_with ex_gitiles ex_builds_down)
                  "go" false b ex_since)
        = Ret (Some "unavailable", m)
      ∧ ∀ j b', j < i → [ex_builder] !! j = Some b' →
          ∃ m', result (builderUnit 3 ex_lib
                          (ex_client_with ex_gitiles ex_builds_down)
                          "go" false b' ex_since)
                = Ret (None, m').
Proof.
  apply (runUnits_first_error 3 ex_lib (ex_client_with ex_gitiles ex_builds_down)
           "go" ex_since [ex_builder] [∅] (Some "unavailable")).
  vm_compute. reflexivity.
Defined.

Lemma ex_resultdb_answers :
  ∀ req, ∃ resp, c_ResultDBClient ex_client req = Resp resp.
Proof. intros req. eexists. reflexivity. Defined.

Lemma queryRows_output_witness :
  result (queryRows ex_lib ex_client ex_flags ex_board 0 (d_Builders ex_board))
  = Ret tt
  ∧ queryRequests
      (trace (queryRows ex_lib ex_client ex_flags ex_board 0 (d_Builders ex_board)))
    = map (λ br, queryOf ex_lib ex_flags br.2)
        (rowsFrom ex_board 0 (d_Builders ex_board))
  ∧ stdout
      (trace (queryRows ex_lib ex_client ex_flags ex_board 0 (d_Builders ex_board)))
    = joined (map (cellOutput ex_lib ex_client ex_flags ex_board)
                (rowsFrom ex_board 0 (d_Builders ex_board))).
Proof.
  apply (queryRows_output ex_lib ex_client ex_flags ex_board ex_resultdb_answers).
  vm_compute. apply le_n.
Defined.

Lemma main_returns_witness : result (main 3 ex_lib ex_flags 0%Z) = Ret tt.
Proof.
  eapply (main_returns 3 ex_lib ex_flags 0%Z (set_TraceSteps ex_client false)).
  - discriminate.
  - reflexivity.
  - vm_compute. reflexivity.
  - intros req. eexists. reflexivity.
Defined.

Lemma queryRow_fatal_witness :
  result (queryRow ex_lib
            (ex_client_of ex_gitiles ex_builds ex_builders ex_resultdb_down)
            ex_flags ex_board ex_builder [None; None; Some (0, "c1")])
  = Fatal (FatalErr "permission denied").
Proof.
  assert (Hp : deref (d_Objects ex_board) (0, "c1")
               = Some (set_Time (resultOf "go" ex_builder ex_build2)
                         10000000000%Z)) by (vm_compute; reflexivity).
  refine (proj1 (queryRow_fatal ex_lib
                   (ex_client_of ex_gitiles ex_builds ex_builders ex_resultdb_down)
                   ex_flags ex_board ex_builder [None; None] (0, "c1") _ []
                   "permission denied" _ Hp eq_refl)).
  intros r' Hr'. by apply elem_of_nil in Hr'.
Defined.
